(** * GNSS performance test: modem command session and signal quality

    A shallow embedding of [dynamic_logging.py] (the modem command-session
    engine) and of [calculate_signal_quality] from [dynamic_parser.py],
    with the properties of the design document proved about them.

    Python [str] values are lists of Unicode code points, so that
    [splitlines], [strip], [startswith] and the [in] operator keep the
    meaning they have in Python.  The serial link, the clock and
    [time.sleep] form the environment; the bytes handed to the port and the
    text appended to the session log file are recorded in the world. *)

From Stdlib Require Import ZArith NArith QArith List Bool String Ascii Lia.
Import ListNotations.

Set Implicit Arguments.

(** ** Python strings *)

Module PyStr.

Definition str := list N.

(** An ASCII literal of the source as a Python string. *)
Definition py (s : string) : str := map N_of_ascii (list_ascii_of_string s).

(** [a == b] *)
Fixpoint str_eqb (a b : str) : bool :=
  match a, b with
  | [], [] => true
  | x :: a', y :: b' => N.eqb x y && str_eqb a' b'
  | _, _ => false
  end.

(** [s.startswith(p)] *)
Fixpoint startswith (p s : str) : bool :=
  match p, s with
  | [], _ => true
  | _ :: _, [] => false
  | a :: p', b :: s' => N.eqb a b && startswith p' s'
  end.

(** [sub in s] *)
Fixpoint str_in (sub s : str) : bool :=
  startswith sub s ||
  match s with
  | [] => false
  | _ :: s' => str_in sub s'
  end.

(** The characters for which [str.isspace] holds. *)
Definition isspace (c : N) : bool :=
  ((9 <=? c) && (c <=? 13) || (28 <=? c) && (c <=? 32) || (c =? 133) ||
   (c =? 160) || (c =? 5760) || (8192 <=? c) && (c <=? 8202) ||
   (c =? 8232) || (c =? 8233) || (c =? 8239) || (c =? 8287) ||
   (c =? 12288))%N.

Fixpoint lstrip (s : str) : str :=
  match s with
  | [] => []
  | c :: s' => if isspace c then lstrip s' else s
  end.

Definition rstrip (s : str) : str := rev (lstrip (rev s)).

(** [s.strip()] *)
Definition strip (s : str) : str := rstrip (lstrip s).

(** The line boundaries of [str.splitlines], the pair CR LF apart. *)
Definition is_linebreak (c : N) : bool :=
  ((10 <=? c) && (c <=? 13) || (28 <=? c) && (c <=? 30) || (c =? 133) ||
   (c =? 8232) || (c =? 8233))%N.

(** [cur] is the line being read, [s] what is left of the text. *)
Fixpoint splitlines_from (cur s : str) : list str :=
  match s with
  | [] => match cur with [] => [] | _ :: _ => [cur] end
  | c :: s' =>
      if (c =? 13)%N then
        match s' with
        | d :: s'' =>
            if (d =? 10)%N then cur :: splitlines_from [] s''
            else cur :: splitlines_from [] s'
        | [] => cur :: splitlines_from [] s'
        end
      else if is_linebreak c then cur :: splitlines_from [] s'
      else splitlines_from (cur ++ [c]) s'
  end.

(** [s.splitlines()] *)
Definition splitlines (s : str) : list str := splitlines_from [] s.

(** [sep.join(items)] *)
Fixpoint join (sep : str) (items : list str) : str :=
  match items with
  | [] => []
  | [x] => x
  | x :: rest => x ++ sep ++ join sep rest
  end.

(** A text without any line boundary. *)
Definition one_line (s : str) : Prop :=
  Forall (fun c => is_linebreak c = false) s.

(** [range(n)] *)
Definition range (n : Z) : list Z := map Z.of_nat (seq 0 (Z.to_nat n)).

(** [s[:-1]] *)
Definition drop_last (s : str) : str := removelast s.

(** The loop of [s.split(sep)] for a non-empty [sep]: [cur] is the part
    being read, [skip] the number of characters of a separator just found
    that are still to be passed over. *)
Fixpoint split_from (sep : str) (skip : nat) (cur s : str) : list str :=
  match s with
  | [] => [cur]
  | c :: s' =>
      match skip with
      | S skip' => split_from sep skip' cur s'
      | O =>
          if startswith sep s
          then cur :: split_from sep (List.length sep - 1) [] s'
          else split_from sep 0 (cur ++ [c]) s'
      end
  end.

(** [s.split(sep)]; [None] is the [ValueError] of an empty separator. *)
Definition split (sep s : str) : option (list str) :=
  match sep with
  | [] => None
  | _ :: _ => Some (split_from sep 0 [] s)
  end.

End PyStr.
Import PyStr.

(** ** Signal quality ([dynamic_parser.py]) *)

Module Parser.

(** A Python number, [int] or [float]: every [int] and every finite [float]
    is a rational, and Python compares an [int] with a [float] exactly. *)
Inductive pynum : Type :=
| Real (q : Q)
| PosInf
| NegInf
| NaN.

(** [x >= c] for a literal [c] of the source. *)
Definition py_ge (x : pynum) (c : Q) : bool :=
  match x with
  | Real q => Qle_bool c q
  | PosInf => true
  | NegInf => false
  | NaN => false
  end.

Definition rsrp_quality (rsrp : pynum) : Z :=
  if py_ge rsrp (-84) then 40
  else if py_ge rsrp (-102) then 30
  else if py_ge rsrp (-111) then 20
  else 10.

Definition rssi_quality (rssi : pynum) : Z :=
  if py_ge rssi (-65) then 40
  else if py_ge rssi (-75) then 30
  else if py_ge rssi (-85) then 20
  else 10.

(** The second test of the source reads [rssi], not [rsrq]. *)
Definition rsrq_quality (rssi rsrq : pynum) : Z :=
  if py_ge rsrq (-5) then 40
  else if py_ge rssi (-6) then 30
  else 10.

Definition sinr_quality (sinr : pynum) : Z :=
  if py_ge sinr (125 # 10) then 40
  else if py_ge sinr 10 then 30
  else if py_ge sinr 7 then 20
  else 10.

(** The four components are integers between 10 and 40, so the true
    division by 4 is exact in binary floating point: the result is the
    rational itself. *)
Definition calculate_signal_quality (rsrp rssi rsrq sinr : pynum) : Q :=
  inject_Z (rsrp_quality rsrp + rssi_quality rssi +
            rsrq_quality rssi rsrq + sinr_quality sinr) / 4.

(** The order of the reals extended to Python numbers; nothing compares
    with [NaN]. *)
Definition num_ge (x : pynum) (c : Q) : Prop :=
  match x with
  | Real q => (c <= q)%Q
  | PosInf => True
  | NegInf => False
  | NaN => False
  end.

Definition num_lt (x : pynum) (c : Q) : Prop :=
  match x with
  | Real q => (q < c)%Q
  | PosInf => False
  | NegInf => True
  | NaN => False
  end.

(** [x <= c] for a literal [c] of the source. *)
Definition py_le (x : pynum) (c : Q) : bool :=
  match x with
  | Real q => Qle_bool q c
  | PosInf => false
  | NegInf => true
  | NaN => false
  end.

(** [get_color], the function local to [create_map]. *)
Definition get_color (quality : pynum) : str :=
  if py_le quality 20 then py "red"
  else if py_le quality 30 then py "orange"
  else if py_le quality 40 then py "lightgreen"
  else py "green".

(** The arguments [map_sinr_to_db] tells apart: an [int], a [bool] (an
    instance of [int] in Python, worth 0 or 1) and everything else. *)
Inductive pyobj : Type :=
| ObjInt (z : Z)
| ObjBool (b : bool)
| ObjOther.

(** What a call comes to: a value, or a [ValueError] with its message. *)
Inductive outcome (A : Type) : Type :=
| Returns (a : A)
| RaisesValueError (message : str).

Arguments Returns {A} a.
Arguments RaisesValueError {A} message.

(** The integer an instance of [int] stands for. *)
Definition int_value (obj : pyobj) : option Z :=
  match obj with
  | ObjInt z => Some z
  | ObjBool b => Some (if b then 1 else 0)%Z
  | ObjOther => None
  end.

Definition map_sinr_to_db (sinr_value : pyobj) : outcome Z :=
  match int_value sinr_value with
  | None => RaisesValueError (py "map_sinr_to_db: sinr_value must be integer")
  | Some v =>
      if ((v <? 0) || (250 <? v))%Z
      then RaisesValueError
             (py "map_sinr_to_db: sinr_value must be between 0 and 250")
      else Returns (v / 5 - 20)%Z
  end.

(** What [parse_line] returns: the seven fields of its [try], or the six
    [None] of its [except]. *)
Inductive parsed_line : Type :=
| Fields (timestamp : str)
         (rfsts_data server_data sock_info_data sock_status_data
          nw_eps_data nw_data : option str)
| NoFields.

(** [parts[i] if len(parts) > i else None] *)
Definition item_or_none (parts : list str) (i : nat) : option str :=
  if (i <? List.length parts)%nat then nth_error parts i else None.

(** [parse_line]: an empty list at [parts[0]] would be the [IndexError],
    an empty separator the [ValueError], that its [except] catches. *)
Definition parse_line (line : str) : parsed_line :=
  match split (py "#") line with
  | None => NoFields
  | Some parts =>
      match parts with
      | [] => NoFields
      | timestamp :: _ =>
          let timestamp := drop_last timestamp in
          match split (py "+") line with
          | None => NoFields
          | Some parts1 =>
              Fields timestamp
                     (item_or_none parts 1) (item_or_none parts 2)
                     (item_or_none parts 3) (item_or_none parts 4)
                     (item_or_none parts1 1) (item_or_none parts1 2)
          end
      end
  end.

(** The rows [parse_pump_modem_log] collects from the lines of the file,
    before they are put in a data frame: a line whose [parse_line] gives
    six values cannot be unpacked into seven names, which the
    [except Exception] of the loop catches, and gives no row. *)
Fixpoint parse_pump_modem_log (lines : list str)
  : list (str * option str) :=
  match lines with
  | [] => []
  | line :: rest =>
      match parse_line line with
      | Fields timestamp phone_mode _ _ _ _ _ =>
          (timestamp, phone_mode) :: parse_pump_modem_log rest
      | NoFields => parse_pump_modem_log rest
      end
  end.

End Parser.

(** ** The modem command session ([dynamic_logging.py]) *)

Module Logging.

(** *** The environment

    What the program reaches through [serial], [time] and the clock.
    [serial_exchange] is the body of the [try] of [com_port_read_write]
    up to [decode()]: the port is flushed, the bytes are written, the
    timeout is set and everything received is read and decoded; [None]
    stands for a [SerialException] or a [UnicodeDecodeError]. *)
Class Environment : Type := {
  env : Type;
  serial_exchange : str -> Z -> env -> option str * env;
  time_sleep : Z -> env -> env;
  (** [time.strftime("%Y-%m-%d %H:%M:%S")] *)
  time_strftime : env -> str
}.

Section Session.

Context {E : Environment}.

(** The world of one modem session: the environment, the exchanges over
    the serial port (what was handed to the port to write, and what
    [com_port_read_write] returned for it; oldest first) and what was
    written to the session log file (oldest first). *)
Record world : Type := World {
  w_env : env;
  w_wire : list (str * option str);
  w_file : list str
}.

(** What was handed to the serial port to write, oldest first. *)
Definition sent (w : world) : list str := map fst (w_wire w).

(** The state monad of the session. *)
Definition M (A : Type) : Type := world -> A * world.

Definition ret {A : Type} (a : A) : M A := fun w => (a, w).

Definition bind {A B : Type} (m : M A) (k : A -> M B) : M B :=
  fun w => let (a, w') := m w in k a w'.

Notation "x <- m ;; k" := (bind m (fun x => k))
  (at level 61, m at next level, right associativity).
Notation "m ;;; k" := (bind m (fun _ => k))
  (at level 61, right associativity).

(** A step of a computation that may run out of fuel. *)
Definition bind_fuel {A B : Type} (m : M (option A)) (k : A -> M (option B))
  : M (option B) :=
  r <- m ;; match r with
            | Some a => k a
            | None => ret None
            end.

(** [time.sleep(secs)] *)
Definition sleep (secs : Z) : M unit :=
  fun w => (tt, World (time_sleep secs (w_env w)) (w_wire w) (w_file w)).

(** [time.strftime("%Y-%m-%d %H:%M:%S")] *)
Definition strftime : M str := fun w => (time_strftime (w_env w), w).

(** [f.write(text); f.flush(); os.fsync(f)] on the session log file. *)
Definition f_write (text : str) : M unit :=
  fun w => (tt, World (w_env w) (w_wire w) (w_file w ++ [text])).

(** The command with its line terminator, as written to the port. *)
Definition framed (command : str) : str := command ++ [13; 10]%N.

(** [com_port_read_write(port, command, max_timeout)]: the session owns
    one port, which is part of the world.  The calls of [logger] go to the
    diagnostic stream and are left out, here and below. *)
Definition com_port_read_write (command : str) (max_timeout : Z)
  : M (option str) :=
  fun w =>
    let (response, e) :=
      serial_exchange (framed command) max_timeout (w_env w) in
    (option_map strip response,
     World e (w_wire w ++ [(framed command, option_map strip response)])
           (w_file w)).

(** *** The command vocabulary *)

Definition dquote : str := [34%N].

Definition cfg_commands : list str :=
  [py "AT";
   py "AT+COPS=2";
   py "AT+CGDCONT=1," ++ dquote ++ py "IP" ++ dquote ++ py "," ++ dquote
     ++ py "wbdata" ++ dquote;
   py "AT+COPS=0";
   py "AT+WS46=30";
   py "AT#WS46=0,0";
   py "AT#BND=0,0,524420,0,0";
   py "AT#REBOOT"].

Definition signal_commands : list str :=
  [py "AT+CESQ"; py "AT#SGACT=1,0"; py "AT#SGACT=1,1"].

Definition nw_eps_reg_status : str := py "AT+CEREG?".
Definition nw_reg_status : str := py "AT+CREG?".

Definition socket_dial : str :=
  py "AT#SD=1,0,7," ++ dquote ++ py "echo.u-blox.com" ++ dquote ++ py ",0,0,1".

Definition tcp_connect_commands : list str := [py "AT#SGACT?"; socket_dial].

Definition message_to_server : list str :=
  [py "AT#SSEND=1"; py "TCP_TEST_OK"; [26%N]].

Definition socket_commands : list str := [py "AT#SI"; py "AT#SS"].

Definition msg_in_response : str := py "TCP_TEST_OK".

Definition message_from_server : str := py "AT#SRECV=1,1500".

Definition rf_status_command : str := py "AT#RFSTS".

Definition cops_check_command : str := py "AT+COPS?".

Definition flight_mode_commands : list str := [py "AT+CFUN=1"; py "AT+CFUN=4"].

Definition pump_dummy_msg : str :=
  py "aasdgajgfsdfhgafdsakjfgadskjfgiweuryaioweuryiuwyfhaksjdbvdsmbvkdshakfhdaklsfhklahfksdfhakdashfklsdhfkasdfkshalkfhafklhdsafdksjahfkdashfklahfdklsajfhkasdhfahieuwryioqyeifofiufbvyiyviyvqioiqoviuytvqiobyvqotbvyqtvyqoityvqoitbvqtvbytebvqityvetbvyitvybtvqiytqboitvyotvyqityqiwebvotyibwevytibvweytiwytvibakhksgdkjasj"
  ++ [26%N].

Definition TIMES_RETRY : Z := 15.

(** *** Configuration and registration *)

(** What a Python function hands back where the source returns [True],
    [False], or falls off its end. *)
Inductive pyresult : Type := PyTrue | PyFalse | PyNone.

(** The truth value the callers test with [if modem_configured:]. *)
Definition truthy (r : pyresult) : bool :=
  match r with
  | PyTrue => true
  | PyFalse => false
  | PyNone => false
  end.

(** The first loop of [configure_sim_module]; [None] is its
    [return False]. *)
Fixpoint configure_commands (config_commands : list str)
    (config_responses : list (str * str)) : M (option (list (str * str))) :=
  match config_commands with
  | [] => ret (Some config_responses)
  | command :: rest =>
      cfg_response <- com_port_read_write command 2 ;;
      match cfg_response with
      | Some r =>
          if str_in (py "OK") r
          then configure_commands rest (config_responses ++ [(command, r)])
          else ret None
      | None => configure_commands rest config_responses
      end
  end.

(** The second loop of [configure_sim_module], over [range(max_retries)];
    the attempt number is used in a log message only. *)
Fixpoint await_registration (attempts : list Z) : M pyresult :=
  match attempts with
  | [] => ret PyNone
  | _ :: rest =>
      cops_response <- com_port_read_write cops_check_command 2 ;;
      match cops_response with
      | Some r =>
          if str_in (py "8") r then ret PyTrue
          else sleep 1 ;;; await_registration rest
      | None => await_registration rest
      end
  end.

Definition configure_sim_module (config_commands : list str)
    (max_retries : Z) : M pyresult :=
  configured <- configure_commands config_commands [] ;;
  match configured with
  | None => ret PyFalse
  | Some _ => sleep 2 ;;; await_registration (range max_retries)
  end.

(** *** The bulk data pump *)

(** The [while max_msg_count:] loop of [pump_data_to_server].  A negative
    count never reaches zero, so the loop is run on fuel: [None] says the
    fuel ran out before the loop ended, [Some tt] that the loop ended (the
    count reached zero, or the [break] was taken). *)
Fixpoint pump_messages (fuel : nat) (max_msg_count : Z) : M (option unit) :=
  match fuel with
  | O => ret None
  | S fuel' =>
      if (max_msg_count =? 0)%Z then ret (Some tt)
      else
        send_response <- com_port_read_write (py "AT#SSEND=1") 5 ;;
        msg_response <- com_port_read_write pump_dummy_msg 5 ;;
        match msg_response with
        | Some r =>
            if negb (str_in (py "OK") r) then ret (Some tt)
            else pump_messages fuel' (max_msg_count - 1)
        | None => pump_messages fuel' (max_msg_count - 1)
        end
  end.

Definition pump_data_to_server (fuel : nat) (max_msg_count : Z)
  : M (option unit) :=
  context_response <- com_port_read_write (py "AT#SGACT=1,1") 5 ;;
  server_response <- com_port_read_write socket_dial 10 ;;
  bind_fuel (pump_messages fuel max_msg_count) (fun _ =>
  socket_response <- com_port_read_write (py "AT#SH=1") 5 ;;
  ret (Some tt)).

(** *** The TCP probe and the status queries *)

(** [for command in commands: com_port_read_write(port, command, 1)] with
    the response only logged. *)
Fixpoint send_each (commands : list str) (max_timeout : Z) : M unit :=
  match commands with
  | [] => ret tt
  | command :: rest =>
      com_port_read_write command max_timeout ;;; send_each rest max_timeout
  end.

(** The loop over the lines of the server's answer: the first line that
    holds [msg_in_response] is appended, and the loop is left. *)
Fixpoint scan_message_lines (lines : list str) (message_response : list str)
  : list str :=
  match lines with
  | [] => message_response
  | line :: rest =>
      if str_in msg_in_response line then message_response ++ [line]
      else scan_message_lines rest message_response
  end.

(** The loop over the lines of a socket answer. *)
Fixpoint scan_socket_lines (lines : list str) (message_response : list str)
  : list str :=
  match lines with
  | [] => message_response
  | line :: rest =>
      if startswith (py "#SI: 1") line then message_response ++ [line]
      else if startswith (py "#SS: 1") line then message_response ++ [line]
      else scan_socket_lines rest message_response
  end.

Fixpoint socket_stage (sock_commands : list str)
    (message_response : list str) : M (list str) :=
  match sock_commands with
  | [] => ret message_response
  | command :: rest =>
      sock_response <- com_port_read_write command 1 ;;
      match sock_response with
      | Some r =>
          socket_stage rest (scan_socket_lines (splitlines r) message_response)
      | None => socket_stage rest message_response
      end
  end.

Definition tcp_connection_test (tcp_commands msg_to_commands : list str)
    (msg_from_command : str) (sock_commands : list str) : M str :=
  send_each tcp_commands 1 ;;;
  send_each msg_to_commands 1 ;;;
  response <- com_port_read_write msg_from_command 1 ;;
  let message_response :=
    match response with
    | Some r => scan_message_lines (splitlines r) [py "#MSG:"]
    | None => [py "#MSG: None"]
    end in
  message_response <- socket_stage sock_commands message_response ;;
  ret (join (py " ") message_response).

Definition check_network_status (command : str) : M str :=
  nw_stat_response <- com_port_read_write command 1 ;;
  let response :=
    match nw_stat_response with
    | Some r =>
        filter (fun line => startswith (py "+CEREG:") line
                            || startswith (py "+CREG:") line
                            || startswith (py "+COPS:") line)
               (splitlines r)
    | None => []
    end in
  ret (join (py " ") response).

Definition check_rf_status (command : str) : M str :=
  rf_status_responses <- com_port_read_write command 2 ;;
  let response :=
    match rf_status_responses with
    | Some r => filter (startswith (py "#RFSTS:")) (splitlines r)
    | None => []
    end in
  ret (join (py " ") response).

(** *** The two operating modes *)

Definition pumping_marker : str := py ":'#Pumping Data To Server...'" ++ [10%N].
Definition flight_marker : str := py ":'#Flight Mode Active...'" ++ [10%N].

(** The body of [for command in phone_mode_commands:]. *)
Definition phone_mode_phase (fuel : nat) (command : str) : M (option unit) :=
  phone_mode_response <- com_port_read_write command 1 ;;
  bind_fuel
    (if str_in (py "1") command then
       sleep 10 ;;;
       cops_response <- com_port_read_write cops_check_command 2 ;;
       match cops_response with
       | Some r =>
           if str_in (py "8") r then
             timestamp <- strftime ;;
             f_write (timestamp ++ pumping_marker) ;;;
             pump_data_to_server fuel 5
           else ret (Some tt)
       | None => ret (Some tt)
       end
     else if str_in (py "4") command then
       timestamp <- strftime ;;
       f_write (timestamp ++ flight_marker) ;;;
       ret (Some tt)
     else ret (Some tt))
    (fun _ => sleep 10 ;;; ret (Some tt)).

Fixpoint phone_mode_cycle (fuel : nat) (phone_mode_commands : list str)
  : M (option unit) :=
  match phone_mode_commands with
  | [] => ret (Some tt)
  | command :: rest =>
      bind_fuel (phone_mode_phase fuel command)
                (fun _ => phone_mode_cycle fuel rest)
  end.

(** The first [cycles] rounds of the [while True:] of
    [pump_modem_data_with_flight_mode]. *)
Fixpoint flight_cycles (cycles fuel : nat) (phone_mode_commands : list str)
  : M (option unit) :=
  match cycles with
  | O => ret (Some tt)
  | S cycles' =>
      bind_fuel (phone_mode_cycle fuel phone_mode_commands)
                (fun _ => flight_cycles cycles' fuel phone_mode_commands)
  end.

(** [pump_modem_data_with_flight_mode], observed for [cycles] rounds of
    its endless loop.  The log file of the session is the one
    [create_log_file] names, opened for appending. *)
Definition pump_modem_data_with_flight_mode (cycles fuel : nat)
    (sig_commands config_commands phone_mode_commands : list str)
  : M (option unit) :=
  modem_configured <- configure_sim_module config_commands TIMES_RETRY ;;
  if truthy modem_configured then
    send_each sig_commands 2 ;;;
    flight_cycles cycles fuel phone_mode_commands
  else ret (Some tt).

(** One round of the [while True:] of [read_and_log_modem_data]. *)
Definition telemetry_round (rf_command nw_eps_command nw_command : str)
  : M unit :=
  tcp_status <- tcp_connection_test tcp_connect_commands message_to_server
                                    message_from_server socket_commands ;;
  nw_eps_status <- check_network_status nw_eps_command ;;
  nw_status <- check_network_status nw_command ;;
  rf_status <- check_rf_status rf_command ;;
  timestamp <- strftime ;;
  f_write (timestamp ++ py ":" ++ rf_status ++ py ":" ++ tcp_status ++ py ":"
           ++ nw_eps_status ++ py ":" ++ nw_status ++ [10%N]).

Fixpoint telemetry_rounds (cycles : nat)
    (rf_command nw_eps_command nw_command : str) : M unit :=
  match cycles with
  | O => ret tt
  | S cycles' =>
      telemetry_round rf_command nw_eps_command nw_command ;;;
      telemetry_rounds cycles' rf_command nw_eps_command nw_command
  end.

(** [read_and_log_modem_data], observed for [cycles] rounds of its endless
    loop. *)
Definition read_and_log_modem_data (cycles : nat) (sig_commands : list str)
    (rf_command nw_eps_command nw_command : str)
    (config_commands : list str) : M unit :=
  modem_configured <- configure_sim_module config_commands TIMES_RETRY ;;
  if truthy modem_configured then
    send_each sig_commands 2 ;;;
    telemetry_rounds cycles rf_command nw_eps_command nw_command
  else ret tt.

End Session.
End Logging.

(** ** Observations and bench environments *)

Module Bench.
Import Logging.

(** A poll of the operator selection found the modem attached. *)
Definition attached (response : option str) : bool :=
  match response with
  | Some r => str_in (py "8") r
  | None => false
  end.

(** A response that lets the configuration or the pump go on. *)
Definition passes (response : option str) : bool :=
  match response with
  | Some r => str_in (py "OK") r
  | None => true
  end.

(** The exchanges of a run of polls of the operator selection, from their
    responses. *)
Definition polled (responses : list (option str)) : list (str * option str) :=
  map (fun r => (framed cops_check_command, r)) responses.

(** The exchanges of one round of the pump: the send command and the
    payload, each with its response. *)
Definition pump_round (responses : option str * option str)
  : list (str * option str) :=
  [(framed (py "AT#SSEND=1"), fst responses);
   (framed pump_dummy_msg, snd responses)].

(** The record that the round of the telemetry loop started in [w] leaves
    at the end of the session log file. *)
Definition telemetry_record {E : Environment}
    (rf_command nw_eps_command nw_command : str) (w : world) : str :=
  last (w_file (snd (telemetry_round rf_command nw_eps_command nw_command w)))
       [].

(** The answers of the sample case of the design document. *)
Definition cops_roaming : str :=
  py "+COPS: 0,0," ++ dquote ++ py "Orange F" ++ dquote ++ py ",8".

Definition cops_searching : str :=
  py "+COPS: 0,0," ++ dquote ++ py "Orange F" ++ dquote ++ py ",2".

Definition bench_clock : str := py "2024-05-01 12:00:00".

(** A modem that plays a script: one entry per exchange, whatever is
    written; silent once the script is over. *)
Definition scripted_exchange (written : str) (timeout : Z)
    (script : list (option str)) : option str * list (option str) :=
  match script with
  | [] => (None, [])
  | response :: rest => (response, rest)
  end.

Definition Scripted : Environment :=
  {| env := list (option str);
     serial_exchange := scripted_exchange;
     time_sleep := fun _ script => script;
     time_strftime := fun _ => bench_clock |}.

Definition scripted_world (script : list (option str)) : @world Scripted :=
  @World Scripted script [] [].

(** A modem that is attached: it answers the operator-selection query
    with the roaming line and everything else with the success marker.
    Its state counts the seconds slept. *)
Definition steady_exchange (written : str) (timeout : Z) (slept : Z)
  : option str * Z :=
  if str_eqb written (framed cops_check_command)
  then (Some (cops_roaming ++ [13; 10; 13; 10]%N ++ py "OK"), slept)
  else (Some (py "OK"), slept).

Definition Steady : Environment :=
  {| env := Z;
     serial_exchange := steady_exchange;
     time_sleep := fun secs slept => (slept + secs)%Z;
     time_strftime := fun _ => bench_clock |}.

Definition steady_world : @world Steady := @World Steady 0%Z [] [].

End Bench.

(** ** What the session leaves in its log *)

Module Records.
Import Logging.


(** The line of a round of the telemetry loop, from its five texts. *)
Definition telemetry_line
    (timestamp rf_status tcp_status nw_eps_status nw_status : str) : str :=
  timestamp ++ py ":" ++ rf_status ++ py ":" ++ tcp_status ++ py ":"
  ++ nw_eps_status ++ py ":" ++ nw_status ++ [10%N].

(** The exchanges of [rounds] rounds of the pump, responses apart. *)
Fixpoint pump_rounds_sent (rounds : nat) : list str :=
  match rounds with
  | O => []
  | S rounds' =>
      framed (py "AT#SSEND=1") :: framed pump_dummy_msg
      :: pump_rounds_sent rounds'
  end.

(** A list of at most one element as Python's loop with [break] leaves
    it. *)
Definition found_line (line : option str) : list str :=
  match line with
  | Some l => [l]
  | None => []
  end.

(** What the probe reports of the server's answer. *)
Definition message_items (response : option str) : list str :=
  match response with
  | Some r =>
      py "#MSG:" :: found_line (find (str_in msg_in_response) (splitlines r))
  | None => [py "#MSG: None"]
  end.

(** What the probe reports of the answer to a socket query. *)
Definition socket_items (response : option str) : list str :=
  match response with
  | Some r =>
      found_line (find (fun line => startswith (py "#SI: 1") line
                                    || startswith (py "#SS: 1") line)
                       (splitlines r))
  | None => []
  end.

End Records.

(** ** More bench modems *)

Module Bench2.
Import Logging Bench.

(** A modem that never attaches: it answers the operator-selection query
    with the searching line and everything else with the success
    marker. *)
Definition searching_exchange (written : str) (timeout : Z) (slept : Z)
  : option str * Z :=
  if str_eqb written (framed cops_check_command)
  then (Some (cops_searching ++ [13; 10; 13; 10]%N ++ py "OK"), slept)
  else (Some (py "OK"), slept).

Definition Searching : Environment :=
  {| env := Z;
     serial_exchange := searching_exchange;
     time_sleep := fun secs slept => (slept + secs)%Z;
     time_strftime := fun _ => bench_clock |}.

Definition searching_world : @world Searching := @World Searching 0%Z [] [].

End Bench2.

(** * Properties *)

(** ** Python strings *)

Module PyStrFacts.

Lemma startswith_app (p t : str) : startswith p (p ++ t) = true.
Proof.
  induction p as [|a p IH]; simpl; [reflexivity|].
  now rewrite N.eqb_refl, IH.
Qed.

Lemma startswith_split (p s : str) :
  startswith p s = true -> exists t, s = p ++ t.
Proof.
  revert s; induction p as [|a p IH]; intros s H.
  - now exists s.
  - destruct s as [|b s]; simpl in H; [discriminate|].
    apply andb_true_iff in H as [Hab Hp].
    apply N.eqb_eq in Hab; subst b.
    destruct (IH _ Hp) as [t ->]. now exists t.
Qed.

Lemma startswith_str_in (p s : str) :
  startswith p s = true -> str_in p s = true.
Proof. intros H. destruct s; simpl; now rewrite H. Qed.

(** [sub in s] holds exactly when [sub] is a factor of [s]. *)
Lemma str_in_factor (sub s : str) :
  str_in sub s = true <-> exists a b, s = a ++ sub ++ b.
Proof.
  split.
  - induction s as [|c s IH]; simpl; intros H.
    + rewrite orb_false_r in H. apply startswith_split in H as [t ->].
      now exists [], t.
    + apply orb_true_iff in H as [H|H].
      * apply startswith_split in H as [t ->]. now exists [], t.
      * destruct (IH H) as (a & b & ->). now exists (c :: a), b.
  - intros (a & b & ->).
    induction a as [|c a IH]; simpl.
    + apply startswith_str_in, startswith_app.
    + rewrite IH. apply orb_true_r.
Qed.

(** For a one-character string, [in] is membership. *)
Lemma str_in_char (c : N) (s : str) : str_in [c] s = true <-> In c s.
Proof.
  rewrite str_in_factor. split.
  - intros (a & b & ->). apply in_or_app. right. now left.
  - intros H. destruct (in_split _ _ H) as (a & b & ->). now exists a, b.
Qed.

Lemma str_in_char_false (c : N) (s : str) : str_in [c] s = false <-> ~ In c s.
Proof.
  rewrite <- str_in_char. destruct (str_in [c] s); split; intros H;
    try reflexivity; try discriminate; try (intros H'; discriminate).
  now destruct H.
Qed.

Lemma splitlines_from_bounded (n : nat) :
  forall s cur : str, (List.length s <= n)%nat -> one_line cur ->
  Forall one_line (splitlines_from cur s).
Proof.
  induction n as [|n IH]; intros s cur Hlen Hcur.
  - destruct s; [|simpl in Hlen; lia].
    simpl. destruct cur; constructor; [assumption | constructor].
  - destruct s as [|c s]; simpl.
    + destruct cur; constructor; [assumption | constructor].
    + simpl in Hlen. destruct (c =? 13)%N eqn:Hcr.
      * destruct s as [|d s].
        -- constructor; [assumption|]. simpl. constructor.
        -- simpl in Hlen.
           destruct (d =? 10)%N; constructor; try assumption;
             apply IH; simpl; try lia; constructor.
      * destruct (is_linebreak c) eqn:Hlb.
        -- constructor; [assumption|]. apply IH; [lia | constructor].
        -- apply IH; [lia|].
           apply Forall_app. split; [assumption|]. now repeat constructor.
Qed.

Lemma splitlines_from_one_line (s cur : str) :
  one_line cur -> Forall one_line (splitlines_from cur s).
Proof. apply (splitlines_from_bounded (n := List.length s)). lia. Qed.

Lemma splitlines_one_line (s : str) : Forall one_line (splitlines s).
Proof. apply splitlines_from_one_line. constructor. Qed.

Lemma join_one_line (sep : str) (items : list str) :
  one_line sep -> Forall one_line items -> one_line (join sep items).
Proof.
  intros Hsep. induction items as [|x items IH]; intros H; simpl.
  - constructor.
  - inversion H as [|? ? Hx Hrest]; subst.
    destruct items as [|y items]; [assumption|].
    apply Forall_app. split; [assumption|].
    apply Forall_app. split; [assumption|]. now apply IH.
Qed.

Lemma one_line_no_newline (s : str) : one_line s -> ~ In 10%N s.
Proof.
  intros H Hin. unfold one_line in H. rewrite Forall_forall in H.
  specialize (H _ Hin). discriminate.
Qed.

End PyStrFacts.
Import PyStrFacts.

(** ** Signal quality *)

Module ParserFacts.
Import Parser.

Lemma py_ge_num_ge (x : pynum) (c : Q) : py_ge x c = true <-> num_ge x c.
Proof.
  destruct x; simpl; try apply Qle_bool_iff;
    split; intros H; try discriminate; try reflexivity; try exact I;
    now destruct H.
Qed.

Lemma num_lt_py_ge (x : pynum) (c : Q) : num_lt x c -> py_ge x c = false.
Proof.
  destruct x; simpl; intros H; try reflexivity; try now destruct H.
  destruct (Qle_bool c q) eqn:Hle; [|reflexivity].
  apply Qle_bool_iff in Hle. exfalso. exact (Qlt_not_le _ _ H Hle).
Qed.

(** C6: for rsrp = -90, rssi = -95, every rsrq >= -5 and every
    sinr >= 12.5, the four components are 30, 10, 40 and 40, and
    [calculate_signal_quality] returns (30+10+40+40)/4 = 30.0. *)
Theorem quality_of_sample_rf_status (rsrq sinr : pynum) :
  num_ge rsrq (-5) ->
  num_ge sinr (125 # 10) ->
  rsrp_quality (Real (-90)) = 30%Z /\
  rssi_quality (Real (-95)) = 10%Z /\
  rsrq_quality (Real (-95)) rsrq = 40%Z /\
  sinr_quality sinr = 40%Z /\
  calculate_signal_quality (Real (-90)) (Real (-95)) rsrq sinr == 30.
Proof.
  intros Hq Hs.
  apply py_ge_num_ge in Hq. apply py_ge_num_ge in Hs.
  assert (Hc : rsrq_quality (Real (-95)) rsrq = 40%Z)
    by (unfold rsrq_quality; now rewrite Hq).
  assert (Hd : sinr_quality sinr = 40%Z)
    by (unfold sinr_quality; now rewrite Hs).
  repeat split; try assumption; try reflexivity.
  unfold calculate_signal_quality. rewrite Hc, Hd. reflexivity.
Qed.

Lemma quality_of_sample_rf_status_witness :
  rsrq_quality (Real (-95)) (Real (-3)) = 40%Z /\
  sinr_quality (Real 13) = 40%Z /\
  calculate_signal_quality (Real (-90)) (Real (-95)) (Real (-3)) (Real 13)
    == 30.
Proof.
  assert (H1 : num_ge (Real (-3)) (-5)) by (simpl; unfold Qle; simpl; lia).
  assert (H2 : num_ge (Real 13) (125 # 10)) by (simpl; unfold Qle; simpl; lia).
  destruct (quality_of_sample_rf_status (Real (-3)) (Real 13) H1 H2)
    as (_ & _ & Hc & Hd & Hq).
  exact (conj Hc (conj Hd Hq)).
Defined.

(** C10: once rsrq < -5 the RSRQ component is decided by rssi alone, 30
    when rssi >= -6 and 10 otherwise; the returned quality is the same for
    every rsrq below -5; and the RSRQ component is never 20. *)
Theorem rsrq_component_decided_by_rssi (rsrp rssi rsrq sinr : pynum) :
  num_lt rsrq (-5) ->
  (num_ge rssi (-6) -> rsrq_quality rssi rsrq = 30%Z) /\
  (~ num_ge rssi (-6) -> rsrq_quality rssi rsrq = 10%Z) /\
  (forall rsrq' : pynum, num_lt rsrq' (-5) ->
     calculate_signal_quality rsrp rssi rsrq' sinr =
     calculate_signal_quality rsrp rssi rsrq sinr) /\
  (forall rssi' rsrq' : pynum, rsrq_quality rssi' rsrq' <> 20%Z).
Proof.
  intros Hlt. pose proof (num_lt_py_ge _ _ Hlt) as Hq.
  repeat split.
  - intros H. apply py_ge_num_ge in H. unfold rsrq_quality. now rewrite Hq, H.
  - intros H. unfold rsrq_quality. rewrite Hq.
    destruct (py_ge rssi (-6)) eqn:Hr; [|reflexivity].
    apply py_ge_num_ge in Hr. contradiction.
  - intros rsrq' Hlt'. pose proof (num_lt_py_ge _ _ Hlt') as Hq'.
    unfold calculate_signal_quality, rsrq_quality. now rewrite Hq, Hq'.
  - intros rssi' rsrq'. unfold rsrq_quality.
    destruct (py_ge rsrq' (-5)); [discriminate|].
    destruct (py_ge rssi' (-6)); discriminate.
Qed.

Lemma rsrq_component_decided_by_rssi_witness :
  rsrq_quality (Real (-95)) (Real (-10)) = 10%Z /\
  calculate_signal_quality (Real (-90)) (Real (-95)) (Real (-20)) (Real 13) =
  calculate_signal_quality (Real (-90)) (Real (-95)) (Real (-10)) (Real 13).
Proof.
  assert (H1 : num_lt (Real (-10)) (-5)) by reflexivity.
  assert (H2 : num_lt (Real (-20)) (-5)) by reflexivity.
  assert (H3 : ~ num_ge (Real (-95)) (-6))
    by (simpl; unfold Qle; simpl; lia).
  destruct (rsrq_component_decided_by_rssi (Real (-90)) (Real (-95))
              (Real (-10)) (Real 13) H1) as (_ & Hb & Hc & _).
  exact (conj (Hb H3) (Hc (Real (-20)) H2)).
Defined.

End ParserFacts.

(** ** The modem command session *)

Module LoggingFacts.
Import Logging Bench.

Section Session.

Context {E : Environment}.

(** *** The command executor *)

Lemma com_port_read_write_effect (command : str) (t : Z) (w w' : world)
    (r : option str) :
  com_port_read_write command t w = (r, w') ->
  w_wire w' = w_wire w ++ [(framed command, r)] /\ w_file w' = w_file w.
Proof.
  unfold com_port_read_write.
  destruct (serial_exchange (framed command) t (w_env w)) as [x e].
  intros [= <- <-]. now split.
Qed.

Lemma sleep_effect (secs : Z) (w : world) :
  w_wire (snd (sleep secs w)) = w_wire w /\
  w_file (snd (sleep secs w)) = w_file w.
Proof. now split. Qed.

(** *** Configuration *)

Lemma configure_commands_app (pre rest : list str) :
  forall (acc : list (str * str)) (w : world),
  configure_commands (pre ++ rest) acc w =
  match configure_commands pre acc w with
  | (Some acc1, w1) => configure_commands rest acc1 w1
  | (None, w1) => (None, w1)
  end.
Proof.
  induction pre as [|c pre IH]; intros acc w; simpl; [reflexivity|].
  unfold bind.
  destruct (com_port_read_write c 2 w) as [[r|] w1]; [|apply IH].
  destruct (str_in (py "OK") r); [apply IH | reflexivity].
Qed.

Lemma configure_commands_sent (cmds : list str) :
  forall (acc acc1 : list (str * str)) (w w1 : world),
  configure_commands cmds acc w = (Some acc1, w1) ->
  sent w1 = sent w ++ map framed cmds /\ w_file w1 = w_file w.
Proof.
  unfold sent.
  induction cmds as [|c cmds IH]; intros acc acc1 w w1; simpl.
  - intros [= <- <-]. now rewrite app_nil_r.
  - unfold bind.
    destruct (com_port_read_write c 2 w) as [r w0] eqn:Hx.
    apply com_port_read_write_effect in Hx as [Hwire Hfile].
    assert (Hgo : forall a, configure_commands cmds a w0 = (Some acc1, w1) ->
              map fst (w_wire w1) = map fst (w_wire w) ++ framed c :: map framed cmds
              /\ w_file w1 = w_file w).
    { intros a Ha. apply IH in Ha as [H1 H2].
      rewrite H1, H2, Hwire, map_app, <- app_assoc. now split. }
    destruct r as [r|]; [|apply Hgo].
    destruct (str_in (py "OK") r); [apply Hgo | discriminate].
Qed.

(** C1: when a configuration command is answered with a text that lacks
    the success marker OK, [configure_sim_module] returns [False] in the
    world that exchange left: the commands after it are not sent, nor is
    any registration poll. *)
Theorem configure_aborts_at_failed_command
    (pre post : list str) (command : str) (max_retries : Z)
    (w w1 w2 : world) (acc : list (str * str)) (r : str) :
  configure_commands pre [] w = (Some acc, w1) ->
  com_port_read_write command 2 w1 = (Some r, w2) ->
  str_in (py "OK") r = false ->
  configure_sim_module (pre ++ command :: post) max_retries w = (PyFalse, w2)
  /\ sent w2 = sent w ++ map framed pre ++ [framed command]
  /\ w_wire w2 = w_wire w1 ++ [(framed command, Some r)].
Proof.
  intros Hpre Hx Hr.
  unfold configure_sim_module, bind.
  rewrite configure_commands_app, Hpre. simpl. unfold bind.
  rewrite Hx, Hr. split; [reflexivity|].
  apply configure_commands_sent in Hpre as [Hs _].
  apply com_port_read_write_effect in Hx as [Hw _].
  split; [|exact Hw].
  unfold sent in *. rewrite Hw, map_app, Hs, <- app_assoc. reflexivity.
Qed.

(** *** Registration polling *)

Lemma await_registration_trace (attempts : list Z) :
  forall w : world,
  exists responses : list (option str),
    w_wire (snd (await_registration attempts w)) = w_wire w ++ polled responses
    /\ w_file (snd (await_registration attempts w)) = w_file w
    /\ (List.length responses <= List.length attempts)%nat
    /\ ((fst (await_registration attempts w) = PyTrue
         /\ exists before r, responses = before ++ [Some r] /\ In 56%N r
              /\ Forall (fun o => attached o = false) before)
        \/ (fst (await_registration attempts w) = PyNone
            /\ List.length responses = List.length attempts
            /\ Forall (fun o => attached o = false) responses)).
Proof.
  induction attempts as [|a attempts IH]; intros w.
  - exists []. simpl. rewrite app_nil_r.
    repeat split; auto; right; repeat split; auto.
  - simpl. unfold bind.
    destruct (com_port_read_write cops_check_command 2 w) as [r w1] eqn:Hx.
    apply com_port_read_write_effect in Hx as [Hwire Hfile].
    assert (Hgo : forall w2, w_wire w2 = w_wire w1 -> w_file w2 = w_file w1 ->
              attached r = false ->
              exists responses : list (option str),
                w_wire (snd (await_registration attempts w2))
                  = w_wire w ++ polled responses
                /\ w_file (snd (await_registration attempts w2)) = w_file w
                /\ (List.length responses <= S (List.length attempts))%nat
                /\ ((fst (await_registration attempts w2) = PyTrue
                     /\ exists before r0, responses = before ++ [Some r0]
                          /\ In 56%N r0
                          /\ Forall (fun o => attached o = false) before)
                    \/ (fst (await_registration attempts w2) = PyNone
                        /\ List.length responses = S (List.length attempts)
                        /\ Forall (fun o => attached o = false) responses))).
    { intros w2 Hw2 Hf2 Hr.
      destruct (IH w2) as (rs & H1 & H2 & H3 & H4).
      exists (r :: rs). rewrite H1, H2, Hw2, Hf2, Hwire, Hfile.
      rewrite <- app_assoc. simpl.
      repeat split; auto; [lia|].
      destruct H4 as [(Ht & before & r0 & -> & Hin & Hb) | (Hn & Hl & Hall)].
      - left. split; [assumption|].
        exists (r :: before), r0. repeat split; auto.
      - right. repeat split; auto. }
    destruct r as [r|]; [|now apply Hgo].
    destruct (str_in (py "8") r) eqn:H8.
    + exists [Some r]. simpl. rewrite Hwire, Hfile.
      repeat split; auto; [lia|]. left. split; [reflexivity|].
      exists [], r. repeat split; auto. now apply (str_in_char 56%N).
    + apply Hgo; auto.
Qed.

Lemma range_length (n : Z) : List.length (range n) = Z.to_nat n.
Proof. unfold range. now rewrite length_map, length_seq. Qed.

(** C2: for every max_attempts >= 0, once the configuration went through,
    the exchanges that follow are polls of the operator selection, at most
    max_attempts of them; either the last of them is the first to hold the
    attachment indicator and the result is [True], or none holds it, all
    max_attempts were made and the function falls off its end: it returns
    [None], which its callers test as false. *)
Theorem registration_polling_is_bounded
    (config_commands : list str) (max_attempts : Z) (w w1 : world)
    (acc : list (str * str)) :
  (0 <= max_attempts)%Z ->
  configure_commands config_commands [] w = (Some acc, w1) ->
  exists responses : list (option str),
    w_wire (snd (configure_sim_module config_commands max_attempts w))
      = w_wire w1 ++ polled responses
    /\ (Z.of_nat (List.length responses) <= max_attempts)%Z
    /\ ((fst (configure_sim_module config_commands max_attempts w) = PyTrue
         /\ exists before r, responses = before ++ [Some r] /\ In 56%N r
              /\ Forall (fun o => attached o = false) before)
        \/ (fst (configure_sim_module config_commands max_attempts w) = PyNone
            /\ truthy PyNone = false
            /\ Z.of_nat (List.length responses) = max_attempts
            /\ Forall (fun o => attached o = false) responses)).
Proof.
  intros Hmax Hcfg. unfold configure_sim_module, bind. rewrite Hcfg.
  destruct (sleep 2 w1) as [u w2] eqn:Hs.
  assert (Hw2 : w_wire w2 = w_wire w1)
    by (change w2 with (snd (u, w2)); rewrite <- Hs; reflexivity).
  destruct (await_registration_trace (range max_attempts) w2)
    as (rs & H1 & _ & H3 & H4).
  rewrite range_length in H3, H4.
  exists rs. rewrite H1, Hw2. repeat split; auto; [lia|].
  destruct H4 as [H4 | (Hn & Hl & Hall)]; [now left|].
  right. repeat split; auto. lia.
Qed.

(** C9: a poll of the registration that yields no response, or an empty
    one, is neither a success nor an error: the loop goes on with the
    attempts that are left, one fewer than before. *)
Theorem inconclusive_poll_consumes_one_attempt
    (attempt : Z) (rest : list Z) (w w1 : world) (r : option str) :
  com_port_read_write cops_check_command 2 w = (r, w1) ->
  r = None \/ r = Some [] ->
  await_registration (attempt :: rest) w =
  await_registration rest
    match r with
    | None => w1
    | Some _ => snd (sleep 1 w1)
    end
  /\ w_wire w1 = w_wire w ++ [(framed cops_check_command, r)].
Proof.
  intros Hx Hr. split.
  - simpl. unfold bind. rewrite Hx.
    destruct Hr as [-> | ->]; reflexivity.
  - now apply com_port_read_write_effect in Hx.
Qed.

(** *** The bulk data pump *)

Lemma pump_messages_trace (fuel : nat) :
  forall (n : Z) (w : world),
  (0 <= n)%Z -> (Z.to_nat n < fuel)%nat ->
  exists rounds : list (option str * option str),
    fst (pump_messages fuel n w) = Some tt
    /\ w_wire (snd (pump_messages fuel n w))
       = w_wire w ++ flat_map pump_round rounds
    /\ w_file (snd (pump_messages fuel n w)) = w_file w
    /\ (Z.of_nat (List.length rounds) <= n)%Z
    /\ (forall before r after, rounds = before ++ r :: after ->
          passes (snd r) = false -> after = [])
    /\ (Forall (fun r => passes (snd r) = true) rounds ->
          Z.of_nat (List.length rounds) = n).
Proof.
  induction fuel as [|fuel IH]; intros n w Hn Hfuel; [lia|].
  simpl. destruct (n =? 0)%Z eqn:Hz.
  - apply Z.eqb_eq in Hz. subst n. exists []. simpl. rewrite app_nil_r.
    repeat split; auto; try lia.
    intros before r after Heq. now destruct before.
  - apply Z.eqb_neq in Hz. unfold bind.
    destruct (com_port_read_write (py "AT#SSEND=1") 5 w) as [sr w1] eqn:H1.
    destruct (com_port_read_write pump_dummy_msg 5 w1) as [mr w2] eqn:H2.
    apply com_port_read_write_effect in H1 as [Hw1 Hf1].
    apply com_port_read_write_effect in H2 as [Hw2 Hf2].
    assert (Hgo : passes mr = true ->
              exists rounds : list (option str * option str),
                fst (pump_messages fuel (n - 1) w2) = Some tt
                /\ w_wire (snd (pump_messages fuel (n - 1) w2))
                   = w_wire w ++ flat_map pump_round rounds
                /\ w_file (snd (pump_messages fuel (n - 1) w2)) = w_file w
                /\ (Z.of_nat (List.length rounds) <= n)%Z
                /\ (forall before r after, rounds = before ++ r :: after ->
                      passes (snd r) = false -> after = [])
                /\ (Forall (fun r => passes (snd r) = true) rounds ->
                      Z.of_nat (List.length rounds) = n)).
    { intros Hpass.
      destruct (IH (n - 1)%Z w2) as (rs & R1 & R2 & R3 & R4 & R5 & R6);
        [lia | lia |].
      exists ((sr, mr) :: rs).
      rewrite R1, R2, R3, Hw2, Hw1, Hf2, Hf1, <- !app_assoc. simpl.
      repeat split; auto; try lia.
      - intros before r after Heq Hr. destruct before as [|b before].
        + simpl in Heq. injection Heq as <- _. simpl in Hr. congruence.
        + simpl in Heq. injection Heq as _ Heq. exact (R5 _ _ _ Heq Hr).
      - intros Hall. inversion Hall as [|? ? Hhd Htl]; subst.
        specialize (R6 Htl). lia. }
    destruct mr as [r|]; [|now apply Hgo].
    destruct (str_in (py "OK") r) eqn:Hok; simpl; [now apply Hgo|].
    exists [(sr, Some r)]. simpl.
    rewrite Hw2, Hw1, Hf2, Hf1, <- !app_assoc. simpl.
    repeat split; auto; try lia.
    + intros before r0 after Heq _. destruct before as [|b before].
      * now injection Heq.
      * simpl in Heq. injection Heq as _ Heq. now destruct before.
    + intros Hall. inversion Hall as [|? ? Hhd Htl]; subst.
      simpl in Hhd. congruence.
Qed.

(** C7: for every budget N >= 0 (and fuel enough for N rounds) the burst
    comes to its end; it opens the context and the socket once, closes the
    socket once, and between them sends at most N payload messages, each
    after its send command; a payload answered with a text that lacks the
    success marker is the last payload of the burst; and when no payload
    is answered so, all N are sent. *)
Theorem pump_burst_is_bounded (fuel : nat) (N : Z) (w : world) :
  (0 <= N)%Z ->
  (Z.to_nat N < fuel)%nat ->
  exists (context server socket : option str)
         (rounds : list (option str * option str)),
    fst (pump_data_to_server fuel N w) = Some tt
    /\ w_wire (snd (pump_data_to_server fuel N w))
       = w_wire w
         ++ (framed (py "AT#SGACT=1,1"), context)
            :: (framed socket_dial, server)
            :: flat_map pump_round rounds
         ++ [(framed (py "AT#SH=1"), socket)]
    /\ (Z.of_nat (List.length rounds) <= N)%Z
    /\ (forall before r after, rounds = before ++ r :: after ->
          passes (snd r) = false -> after = [])
    /\ (Forall (fun r => passes (snd r) = true) rounds ->
          Z.of_nat (List.length rounds) = N).
Proof.
  intros HN Hfuel. unfold pump_data_to_server, bind_fuel, bind.
  destruct (com_port_read_write (py "AT#SGACT=1,1") 5 w) as [cr w1] eqn:H1.
  destruct (com_port_read_write socket_dial 10 w1) as [sr w2] eqn:H2.
  apply com_port_read_write_effect in H1 as [Hw1 _].
  apply com_port_read_write_effect in H2 as [Hw2 _].
  destruct (pump_messages_trace w2 HN Hfuel) as (rs & R1 & R2 & _ & R4 & R5 & R6).
  destruct (pump_messages fuel N w2) as [res w3]. simpl in R1, R2. subst res.
  destruct (com_port_read_write (py "AT#SH=1") 5 w3) as [hr w4] eqn:H4.
  apply com_port_read_write_effect in H4 as [Hw4 _].
  exists cr, sr, hr, rs. simpl.
  rewrite Hw4, R2, Hw2, Hw1, <- !app_assoc. simpl.
  repeat split; auto.
Qed.

Lemma pump_data_to_server_file (fuel : nat) (n : Z) (w : world) :
  w_file (snd (pump_data_to_server fuel n w)) = w_file w.
Proof.
  unfold pump_data_to_server, bind_fuel, bind.
  destruct (com_port_read_write (py "AT#SGACT=1,1") 5 w) as [cr w1] eqn:H1.
  destruct (com_port_read_write socket_dial 10 w1) as [sr w2] eqn:H2.
  apply com_port_read_write_effect in H1 as [_ Hf1].
  apply com_port_read_write_effect in H2 as [_ Hf2].
  assert (Hp : w_file (snd (pump_messages fuel n w2)) = w_file w2).
  { clear. revert n w2. induction fuel as [|fuel IH]; intros n w; simpl;
      [reflexivity|].
    destruct (n =? 0)%Z; [reflexivity|]. unfold bind.
    destruct (com_port_read_write (py "AT#SSEND=1") 5 w) as [a w1] eqn:H1.
    destruct (com_port_read_write pump_dummy_msg 5 w1) as [b w2] eqn:H2.
    apply com_port_read_write_effect in H1 as [_ Hf1].
    apply com_port_read_write_effect in H2 as [_ Hf2].
    assert (Hgo : w_file (snd (pump_messages fuel (n - 1) w2)) = w_file w)
      by (rewrite IH; congruence).
    destruct b as [r|]; [|exact Hgo].
    destruct (negb (str_in (py "OK") r)); [simpl; congruence | exact Hgo]. }
  destruct (pump_messages fuel n w2) as [[[]|] w3]; simpl in Hp.
  - destruct (com_port_read_write (py "AT#SH=1") 5 w3) as [hr w4] eqn:H4.
    apply com_port_read_write_effect in H4 as [_ Hf4]. simpl. congruence.
  - simpl. congruence.
Qed.

(** *** The TCP probe and the status queries *)

Lemma send_each_trace (commands : list str) (t : Z) :
  forall w : world,
  exists xs : list (str * option str),
    w_wire (snd (send_each commands t w)) = w_wire w ++ xs
    /\ map fst xs = map framed commands
    /\ w_file (snd (send_each commands t w)) = w_file w.
Proof.
  induction commands as [|c commands IH]; intros w; simpl.
  - exists []. now rewrite app_nil_r.
  - unfold bind.
    destruct (com_port_read_write c t w) as [r w1] eqn:Hx.
    apply com_port_read_write_effect in Hx as [Hw Hf].
    destruct (IH w1) as (xs & H1 & H2 & H3).
    exists ((framed c, r) :: xs).
    rewrite H1, H3, Hw, Hf, <- app_assoc. simpl. now rewrite H2.
Qed.

Lemma scan_message_lines_found (lines acc : list str) :
  exists extra : list str,
    scan_message_lines lines acc = acc ++ extra
    /\ (List.length extra <= 1)%nat
    /\ Forall (fun l => In l lines) extra.
Proof.
  induction lines as [|line lines IH]; cbn [scan_message_lines].
  - exists []. rewrite app_nil_r. repeat split; auto.
  - destruct (str_in msg_in_response line).
    + exists [line]. split; [reflexivity|].
      split; [simpl; lia|]. constructor; [now left | constructor].
    + destruct IH as (extra & H1 & H2 & H3). exists extra.
      repeat split; auto.
      eapply Forall_impl; [|exact H3]. intros l Hl. now right.
Qed.

Lemma scan_socket_lines_found (lines acc : list str) :
  exists extra : list str,
    scan_socket_lines lines acc = acc ++ extra
    /\ (List.length extra <= 1)%nat
    /\ Forall (fun l => In l lines) extra.
Proof.
  induction lines as [|line lines IH]; cbn [scan_socket_lines].
  - exists []. rewrite app_nil_r. repeat split; auto.
  - assert (Hone : exists extra : list str,
              acc ++ [line] = acc ++ extra /\ (List.length extra <= 1)%nat
              /\ Forall (fun l => In l (line :: lines)) extra)
      by (exists (line :: nil); split; [reflexivity|];
          split; [simpl; lia|]; constructor; [now left | constructor]).
    destruct (startswith (py "#SI: 1") line); [exact Hone|].
    destruct (startswith (py "#SS: 1") line); [exact Hone|].
    destruct IH as (extra & H1 & H2 & H3). exists extra.
    repeat split; auto.
    eapply Forall_impl; [|exact H3]. intros l Hl. now right.
Qed.

Lemma lines_found_one_line (r : str) (extra : list str) :
  Forall (fun l => In l (splitlines r)) extra -> Forall one_line extra.
Proof.
  intros H. eapply Forall_impl; [|exact H]. intros l Hl.
  pose proof (splitlines_one_line r) as Hall.
  rewrite Forall_forall in Hall. now apply Hall.
Qed.

Lemma socket_stage_trace (sock_commands : list str) :
  forall (acc : list str) (w : world),
  exists (xs : list (str * option str)) (extra : list str),
    w_wire (snd (socket_stage sock_commands acc w)) = w_wire w ++ xs
    /\ map fst xs = map framed sock_commands
    /\ w_file (snd (socket_stage sock_commands acc w)) = w_file w
    /\ fst (socket_stage sock_commands acc w) = acc ++ extra
    /\ (List.length extra <= List.length sock_commands)%nat
    /\ Forall one_line extra.
Proof.
  induction sock_commands as [|c sock_commands IH]; intros acc w; simpl.
  - exists [], []. rewrite !app_nil_r. repeat split; auto.
  - unfold bind.
    destruct (com_port_read_write c 1 w) as [r w1] eqn:Hx.
    apply com_port_read_write_effect in Hx as [Hw Hf].
    destruct r as [r|].
    + destruct (scan_socket_lines_found (splitlines r) acc)
        as (e1 & E1 & E2 & E3).
      rewrite E1.
      destruct (IH (acc ++ e1) w1) as (xs & e2 & H1 & H2 & H3 & H4 & H5 & H6).
      exists ((framed c, Some r) :: xs), (e1 ++ e2).
      rewrite H1, H3, H4, Hw, Hf, <- !app_assoc. simpl. rewrite H2.
      repeat split; auto.
      * rewrite length_app. lia.
      * apply Forall_app. split; [|assumption].
        now apply lines_found_one_line with (r := r).
    + destruct (IH acc w1) as (xs & e2 & H1 & H2 & H3 & H4 & H5 & H6).
      exists ((framed c, None) :: xs), e2.
      rewrite H1, H3, H4, Hw, Hf, <- !app_assoc. simpl. rewrite H2.
      repeat split; auto.
Qed.

(** The probe, stage by stage. *)
Lemma tcp_connection_test_stages
    (tcp_commands msg_to_commands : list str) (msg_from_command : str)
    (sock_commands : list str) (w : world) :
  exists (xs1 xs2 xs3 : list (str * option str)) (response : option str)
         (found socket_lines : list str),
    w_wire (snd (tcp_connection_test tcp_commands msg_to_commands
                   msg_from_command sock_commands w))
      = w_wire w ++ xs1 ++ xs2 ++ (framed msg_from_command, response) :: xs3
    /\ map fst xs1 = map framed tcp_commands
    /\ map fst xs2 = map framed msg_to_commands
    /\ map fst xs3 = map framed sock_commands
    /\ w_file (snd (tcp_connection_test tcp_commands msg_to_commands
                      msg_from_command sock_commands w)) = w_file w
    /\ fst (tcp_connection_test tcp_commands msg_to_commands
              msg_from_command sock_commands w)
       = join (py " ")
           (match response with
            | Some _ => py "#MSG:" :: found
            | None => [py "#MSG: None"]
            end ++ socket_lines)
    /\ (List.length socket_lines <= List.length sock_commands)%nat
    /\ Forall one_line found /\ Forall one_line socket_lines.
Proof.
  unfold tcp_connection_test, bind.
  destruct (send_each_trace tcp_commands 1 w) as (xs1 & A1 & A2 & A3).
  destruct (send_each tcp_commands 1 w) as [u1 w1]. simpl in A1, A3.
  destruct (send_each_trace msg_to_commands 1 w1) as (xs2 & B1 & B2 & B3).
  destruct (send_each msg_to_commands 1 w1) as [u2 w2]. simpl in B1, B3.
  destruct (com_port_read_write msg_from_command 1 w2) as [r w3] eqn:Hx.
  apply com_port_read_write_effect in Hx as [Hw Hf].
  set (acc := match r with
              | Some r0 => scan_message_lines (splitlines r0) [py "#MSG:"]
              | None => [py "#MSG: None"]
              end).
  destruct (socket_stage_trace sock_commands acc w3)
    as (xs3 & extra & C1 & C2 & C3 & C4 & C5 & C6).
  destruct (socket_stage sock_commands acc w3) as [res w4].
  simpl in C1, C3, C4. subst res. simpl.
  assert (Hacc : exists found, Forall one_line found /\
            acc = match r with
                  | Some _ => py "#MSG:" :: found
                  | None => [py "#MSG: None"]
                  end).
  { unfold acc. destruct r as [r0|]; [|exists []; split; auto].
    destruct (scan_message_lines_found (splitlines r0) [py "#MSG:"])
      as (e & E1 & _ & E3).
    exists e. split; [now apply lines_found_one_line with (r := r0)|].
    now rewrite E1. }
  destruct Hacc as (found & Hfound & Hacc).
  exists xs1, xs2, xs3, r, found, extra.
  rewrite C1, C3, Hw, Hf, B1, B3, A1, A3, Hacc, <- !app_assoc. simpl.
  repeat split; auto.
Qed.

(** C5: whatever the modem answers, the probe runs all its stages: every
    command of the connect, send, receive and socket-status steps is
    exchanged, in order, and a result string is returned; when the
    message read yields no response, the result starts with the marker
    [#MSG: None], followed by the socket lines found. *)
Theorem tcp_probe_runs_every_stage
    (tcp_commands msg_to_commands : list str) (msg_from_command : str)
    (sock_commands : list str) (w : world) :
  exists xs : list (str * option str),
    w_wire (snd (tcp_connection_test tcp_commands msg_to_commands
                   msg_from_command sock_commands w)) = w_wire w ++ xs
    /\ map fst xs
       = map framed (tcp_commands ++ msg_to_commands
                     ++ msg_from_command :: sock_commands)
    /\ (nth_error (map snd xs)
          (List.length tcp_commands + List.length msg_to_commands)
        = Some None ->
        exists socket_lines : list str,
          fst (tcp_connection_test tcp_commands msg_to_commands
                 msg_from_command sock_commands w)
          = join (py " ") (py "#MSG: None" :: socket_lines)
          /\ (List.length socket_lines <= List.length sock_commands)%nat).
Proof.
  destruct (tcp_connection_test_stages tcp_commands msg_to_commands
              msg_from_command sock_commands w)
    as (xs1 & xs2 & xs3 & r & found & socks
        & H1 & H2 & H3 & H4 & _ & H6 & H7 & _).
  exists (xs1 ++ xs2 ++ (framed msg_from_command, r) :: xs3).
  split; [exact H1|]. split.
  - rewrite !map_app. simpl. now rewrite H2, H3, H4.
  - intros Hnth.
    assert (Hl1 : List.length (map snd xs1) = List.length tcp_commands)
      by (rewrite length_map, <- (length_map fst), H2; apply length_map).
    assert (Hl2 : List.length (map snd xs2) = List.length msg_to_commands)
      by (rewrite length_map, <- (length_map fst), H3; apply length_map).
    rewrite !map_app in Hnth. simpl in Hnth.
    rewrite nth_error_app2 in Hnth by lia.
    rewrite nth_error_app2 in Hnth by lia.
    replace (List.length tcp_commands + List.length msg_to_commands
             - List.length (map snd xs1) - List.length (map snd xs2))%nat
      with 0%nat in Hnth by lia.
    simpl in Hnth. injection Hnth as ->.
    exists socks. split; [exact H6 | exact H7].
Qed.

Lemma filter_one_line (f : str -> bool) (lines : list str) :
  Forall one_line lines -> Forall one_line (filter f lines).
Proof.
  rewrite !Forall_forall. intros H l Hl. apply filter_In in Hl as [Hl _].
  now apply H.
Qed.

Lemma py_one_line_space : one_line (py " ").
Proof. repeat constructor. Qed.

Lemma check_network_status_effect (command : str) (w : world) :
  w_file (snd (check_network_status command w)) = w_file w
  /\ one_line (fst (check_network_status command w)).
Proof.
  unfold check_network_status, bind.
  destruct (com_port_read_write command 1 w) as [r w1] eqn:Hx.
  apply com_port_read_write_effect in Hx as [_ Hf]. simpl.
  split; [exact Hf|].
  apply join_one_line; [exact py_one_line_space|].
  destruct r as [r|]; [|constructor].
  apply filter_one_line, splitlines_one_line.
Qed.

Lemma check_rf_status_effect (command : str) (w : world) :
  w_file (snd (check_rf_status command w)) = w_file w
  /\ one_line (fst (check_rf_status command w)).
Proof.
  unfold check_rf_status, bind.
  destruct (com_port_read_write command 2 w) as [r w1] eqn:Hx.
  apply com_port_read_write_effect in Hx as [_ Hf]. simpl.
  split; [exact Hf|].
  apply join_one_line; [exact py_one_line_space|].
  destruct r as [r|]; [|constructor].
  apply filter_one_line, splitlines_one_line.
Qed.

Lemma tcp_connection_test_effect
    (tcp_commands msg_to_commands : list str) (msg_from_command : str)
    (sock_commands : list str) (w : world) :
  w_file (snd (tcp_connection_test tcp_commands msg_to_commands
                 msg_from_command sock_commands w)) = w_file w
  /\ one_line (fst (tcp_connection_test tcp_commands msg_to_commands
                      msg_from_command sock_commands w)).
Proof.
  destruct (tcp_connection_test_stages tcp_commands msg_to_commands
              msg_from_command sock_commands w)
    as (xs1 & xs2 & xs3 & r & found & socks
        & _ & _ & _ & _ & Hf & Hres & _ & Hfound & Hsocks).
  split; [exact Hf|]. rewrite Hres.
  apply join_one_line; [exact py_one_line_space|].
  apply Forall_app. split; [|exact Hsocks].
  destruct r; repeat constructor. exact Hfound.
Qed.

Lemma telemetry_round_record (rf_command nw_eps_command nw_command : str)
    (w : world) :
  let tcp := tcp_connection_test tcp_connect_commands message_to_server
               message_from_server socket_commands w in
  let eps := check_network_status nw_eps_command (snd tcp) in
  let nw := check_network_status nw_command (snd eps) in
  let rf := check_rf_status rf_command (snd nw) in
  w_file (snd (telemetry_round rf_command nw_eps_command nw_command w))
  = w_file w
    ++ [time_strftime (w_env (snd rf)) ++ py ":" ++ fst rf ++ py ":"
        ++ fst tcp ++ py ":" ++ fst eps ++ py ":" ++ fst nw ++ [10%N]].
Proof.
  intros tcp eps nw rf.
  unfold telemetry_round, bind.
  fold tcp. destruct tcp as [tcp_status w1] eqn:Ht.
  pose proof (tcp_connection_test_effect tcp_connect_commands
                message_to_server message_from_server socket_commands w)
    as [Hf1 _].
  fold tcp in Hf1. rewrite Ht in Hf1. simpl in Hf1.
  subst eps nw rf. simpl.
  pose proof (check_network_status_effect nw_eps_command w1) as [Hf2 _].
  destruct (check_network_status nw_eps_command w1) as [eps_status w2].
  simpl in *.
  pose proof (check_network_status_effect nw_command w2) as [Hf3 _].
  destruct (check_network_status nw_command w2) as [nw_status w3].
  simpl in *.
  pose proof (check_rf_status_effect rf_command w3) as [Hf4 _].
  destruct (check_rf_status rf_command w3) as [rf_status w4].
  simpl in *. rewrite Hf4, Hf3, Hf2, Hf1. reflexivity.
Qed.

Lemma telemetry_round_appends (rf_command nw_eps_command nw_command : str)
    (w : world) :
  w_file (snd (telemetry_round rf_command nw_eps_command nw_command w))
  = w_file w ++ [telemetry_record rf_command nw_eps_command nw_command w].
Proof.
  unfold telemetry_record.
  rewrite (telemetry_round_record rf_command nw_eps_command nw_command w).
  now rewrite last_last.
Qed.

Lemma telemetry_rounds_file (cycles : nat)
    (rf_command nw_eps_command nw_command : str) :
  forall w : world,
  exists starts : list world,
    List.length starts = cycles
    /\ w_file (snd (telemetry_rounds cycles rf_command nw_eps_command
                      nw_command w))
       = w_file w
         ++ map (telemetry_record rf_command nw_eps_command nw_command) starts.
Proof.
  induction cycles as [|cycles IH]; intros w; simpl.
  - exists []. simpl. now rewrite app_nil_r.
  - unfold bind.
    pose proof (telemetry_round_appends rf_command nw_eps_command
                  nw_command w) as Hr.
    destruct (telemetry_round rf_command nw_eps_command nw_command w)
      as [u w1].
    simpl in Hr. destruct (IH w1) as (starts & Hl & Hfile).
    exists (w :: starts). simpl. rewrite Hfile, Hr, <- app_assoc.
    split; [now rewrite Hl | reflexivity].
Qed.

Lemma configure_commands_file (cmds : list str) :
  forall (acc : list (str * str)) (w : world),
  w_file (snd (configure_commands cmds acc w)) = w_file w.
Proof.
  induction cmds as [|c cmds IH]; intros acc w; simpl; [reflexivity|].
  unfold bind.
  destruct (com_port_read_write c 2 w) as [r w1] eqn:Hx.
  apply com_port_read_write_effect in Hx as [_ Hf].
  destruct r as [r|]; [|now rewrite IH].
  destruct (str_in (py "OK") r); [now rewrite IH | exact Hf].
Qed.

Lemma configure_sim_module_file (cmds : list str) (max_retries : Z)
    (w : world) :
  w_file (snd (configure_sim_module cmds max_retries w)) = w_file w.
Proof.
  unfold configure_sim_module, bind.
  pose proof (configure_commands_file cmds [] w) as Hc.
  destruct (configure_commands cmds [] w) as [[acc|] w1]; simpl in Hc;
    [|exact Hc].
  destruct (await_registration_trace (range max_retries) (snd (sleep 2 w1)))
    as (rs & _ & Hf & _).
  destruct (sleep 2 w1) as [u w2] eqn:Hs. simpl in Hf.
  rewrite Hf. change w2 with (snd (u, w2)). rewrite <- Hs. exact Hc.
Qed.

(** C8: in telemetry mode the session log file grows by one record for
    each round of the loop and by nothing else; the record of a round is
    the timestamp, the RF-status text, the TCP-probe text, the EPS
    registration-status text and the legacy registration-status text, in
    that order, with [:] between them and a line feed at the end, and the
    four status texts hold no line boundary. *)
Theorem telemetry_record_layout
    (rf_command nw_eps_command nw_command : str) :
  (forall (cycles : nat) (sig_commands config_commands : list str)
          (w : world),
     exists starts : list world,
       (List.length starts <= cycles)%nat
       /\ w_file (snd (read_and_log_modem_data cycles sig_commands rf_command
                         nw_eps_command nw_command config_commands w))
          = w_file w
            ++ map (telemetry_record rf_command nw_eps_command nw_command)
                   starts)
  /\ (forall w : world,
        let tcp := tcp_connection_test tcp_connect_commands message_to_server
                     message_from_server socket_commands w in
        let eps := check_network_status nw_eps_command (snd tcp) in
        let nw := check_network_status nw_command (snd eps) in
        let rf := check_rf_status rf_command (snd nw) in
        telemetry_record rf_command nw_eps_command nw_command w
        = time_strftime (w_env (snd rf)) ++ py ":" ++ fst rf ++ py ":"
          ++ fst tcp ++ py ":" ++ fst eps ++ py ":" ++ fst nw ++ [10%N]
        /\ one_line (fst rf) /\ one_line (fst tcp)
        /\ one_line (fst eps) /\ one_line (fst nw)).
Proof.
  split.
  - intros cycles sig_commands config_commands w.
    unfold read_and_log_modem_data, bind.
    pose proof (configure_sim_module_file config_commands TIMES_RETRY w) as Hc.
    destruct (configure_sim_module config_commands TIMES_RETRY w)
      as [res w1].
    simpl in Hc. destruct (truthy res).
    + destruct (send_each_trace sig_commands 2 w1) as (xs & _ & _ & Hs).
      destruct (send_each sig_commands 2 w1) as [u w2]. simpl in Hs.
      destruct (telemetry_rounds_file cycles rf_command nw_eps_command
                  nw_command w2) as (starts & Hl & Hfile).
      exists starts. split; [lia|]. rewrite Hfile. congruence.
    + exists []. simpl. rewrite app_nil_r. split; [lia | exact Hc].
  - intros w tcp eps nw rf.
    split; [|repeat split].
    + unfold telemetry_record.
      rewrite (telemetry_round_record rf_command nw_eps_command nw_command w).
      now rewrite last_last.
    + apply check_rf_status_effect.
    + apply tcp_connection_test_effect.
    + apply check_network_status_effect.
    + apply check_network_status_effect.
Qed.

(** *** The flight-mode cycle *)

Lemma pump_data_to_server_ends (fuel : nat) (n : Z) (w : world) :
  (0 <= n)%Z -> (Z.to_nat n < fuel)%nat ->
  fst (pump_data_to_server fuel n w) = Some tt.
Proof.
  intros Hn Hfuel. unfold pump_data_to_server, bind_fuel, bind.
  destruct (com_port_read_write (py "AT#SGACT=1,1") 5 w) as [cr w1].
  destruct (com_port_read_write socket_dial 10 w1) as [sr w2].
  destruct (pump_messages_trace w2 Hn Hfuel) as (rs & R1 & _).
  destruct (pump_messages fuel n w2) as [res w3]. simpl in R1. subst res.
  now destruct (com_port_read_write (py "AT#SH=1") 5 w3).
Qed.

(** The phase of a command that holds [1]: the marker is written exactly
    when the registration check that follows holds [8]. *)
Lemma phone_mode_phase_enable (fuel : nat) (command : str)
    (w w0 w1 : world) (pr cr : option str) :
  str_in (py "1") command = true ->
  com_port_read_write command 1 w = (pr, w0) ->
  com_port_read_write cops_check_command 2 (snd (sleep 10 w0)) = (cr, w1) ->
  w_file (snd (phone_mode_phase fuel command w))
  = w_file w ++ (if attached cr
                 then [time_strftime (w_env w1) ++ pumping_marker]
                 else [])
  /\ ((5 < fuel)%nat -> fst (phone_mode_phase fuel command w) = Some tt).
Proof.
  intros H1 Hx Hc. unfold phone_mode_phase, bind_fuel, bind.
  rewrite Hx, H1.
  destruct (sleep 10 w0) as [u ws] eqn:Hs. simpl in Hc. rewrite Hc.
  apply com_port_read_write_effect in Hx as [_ Hf0].
  apply com_port_read_write_effect in Hc as [_ Hf1].
  assert (Hfs : w_file ws = w_file w0)
    by (change ws with (snd (u, ws)); rewrite <- Hs; reflexivity).
  assert (Hw1 : w_file w1 = w_file w) by congruence.
  destruct cr as [r|]; simpl;
    [destruct (str_in (py "8") r) eqn:H8|]; simpl;
    try (rewrite app_nil_r; split; [exact Hw1 | reflexivity]).
  match goal with
  | |- context [pump_data_to_server fuel 5 ?x] => set (wp := x)
  end.
  assert (Hwp : w_file wp
                = w_file w1 ++ [time_strftime (w_env w1) ++ pumping_marker])
    by reflexivity.
  clearbody wp.
  pose proof (pump_data_to_server_file fuel 5 wp) as Hpf.
  pose proof (@pump_data_to_server_ends fuel 5 wp) as Hpe.
  destruct (pump_data_to_server fuel 5 wp) as [res w2].
  simpl in Hpf, Hpe. split.
  - destruct res; simpl; now rewrite Hpf, Hwp, Hw1.
  - intros Hfuel. rewrite Hpe; [reflexivity | lia | simpl; lia].
Qed.

(** The phase of a command that holds [4] and no [1]. *)
Lemma phone_mode_phase_disable (fuel : nat) (command : str)
    (w w0 : world) (pr : option str) :
  str_in (py "1") command = false ->
  str_in (py "4") command = true ->
  com_port_read_write command 1 w = (pr, w0) ->
  w_file (snd (phone_mode_phase fuel command w))
  = w_file w ++ [time_strftime (w_env w0) ++ flight_marker]
  /\ fst (phone_mode_phase fuel command w) = Some tt.
Proof.
  intros H1 H4 Hx. unfold phone_mode_phase, bind_fuel, bind.
  rewrite Hx, H1, H4. simpl.
  apply com_port_read_write_effect in Hx as [_ Hf0].
  now rewrite Hf0.
Qed.

(** C3: the registration check succeeds exactly when the response holds
    the character 8 somewhere.  In the polling loop a response with an 8
    ends the loop with [True] and one without is a failed attempt, after
    which the loop sleeps and goes on; in the flight cycle the pumping
    marker is written for a response with an 8 and nothing is written for
    one without.  The sample answer ending in [,8] holds it, the one
    ending in [,2] does not. *)
Theorem registration_success_is_digit_8 :
  (forall (attempt : Z) (rest : list Z) (w w1 : world) (r : str),
     com_port_read_write cops_check_command 2 w = (Some r, w1) ->
     (In 56%N r -> await_registration (attempt :: rest) w = (PyTrue, w1))
     /\ (~ In 56%N r ->
         await_registration (attempt :: rest) w
         = await_registration rest (snd (sleep 1 w1))))
  /\ (forall (fuel : nat) (command : str) (w w0 w1 : world)
             (pr : option str) (r : str),
        str_in (py "1") command = true ->
        com_port_read_write command 1 w = (pr, w0) ->
        com_port_read_write cops_check_command 2 (snd (sleep 10 w0))
        = (Some r, w1) ->
        (In 56%N r ->
         w_file (snd (phone_mode_phase fuel command w))
         = w_file w ++ [time_strftime (w_env w1) ++ pumping_marker])
        /\ (~ In 56%N r ->
            w_file (snd (phone_mode_phase fuel command w)) = w_file w))
  /\ In 56%N cops_roaming
  /\ ~ In 56%N cops_searching.
Proof.
  split; [|split; [|split]].
  - intros attempt rest w w1 r Hx. simpl. unfold bind. rewrite Hx. split.
    + intros Hin. apply (str_in_char 56%N) in Hin.
      change [56%N] with (py "8") in Hin. now rewrite Hin.
    + intros Hin. apply (str_in_char_false 56%N) in Hin.
      change [56%N] with (py "8") in Hin. now rewrite Hin.
  - intros fuel command w w0 w1 pr r H1 Hx Hc.
    destruct (phone_mode_phase_enable fuel command w H1 Hx Hc) as [Hfile _].
    simpl in Hfile. split; intros Hin.
    + apply (str_in_char 56%N) in Hin.
      change [56%N] with (py "8") in Hin. now rewrite Hin in Hfile.
    + apply (str_in_char_false 56%N) in Hin.
      change [56%N] with (py "8") in Hin. rewrite Hin in Hfile.
      now rewrite app_nil_r in Hfile.
  - apply (str_in_char 56%N). reflexivity.
  - apply (str_in_char_false 56%N). reflexivity.
Qed.

(** One round over the command pair, the registration check of its
    enable phase holding the attachment indicator. *)
Lemma phone_mode_cycle_flight (fuel : nat) (w : world) :
  (5 < fuel)%nat ->
  attached
    (fst (com_port_read_write cops_check_command 2
            (snd (sleep 10 (snd (com_port_read_write (py "AT+CFUN=1") 1 w))))))
  = true ->
  fst (phone_mode_cycle fuel flight_mode_commands w) = Some tt
  /\ w_file (snd (phone_mode_cycle fuel flight_mode_commands w))
     = w_file w
       ++ [time_strftime
             (w_env
                (snd (com_port_read_write cops_check_command 2
                        (snd (sleep 10
                                (snd (com_port_read_write (py "AT+CFUN=1") 1
                                        w)))))))
           ++ pumping_marker;
           time_strftime
             (w_env
                (snd (com_port_read_write (py "AT+CFUN=4") 1
                        (snd (phone_mode_phase fuel (py "AT+CFUN=1") w)))))
           ++ flight_marker].
Proof.
  intros Hfuel Hatt.
  assert (H1 : str_in (py "1") (py "AT+CFUN=1") = true) by reflexivity.
  assert (H41 : str_in (py "1") (py "AT+CFUN=4") = false) by reflexivity.
  assert (H44 : str_in (py "4") (py "AT+CFUN=4") = true) by reflexivity.
  destruct (phone_mode_phase_enable fuel (py "AT+CFUN=1") w H1
              (surjective_pairing _) (surjective_pairing _))
    as [Hfile Hres].
  rewrite Hatt in Hfile. specialize (Hres Hfuel).
  destruct (phone_mode_phase_disable fuel (py "AT+CFUN=4")
              (snd (phone_mode_phase fuel (py "AT+CFUN=1") w)) H41 H44
              (surjective_pairing _))
    as [Hfile4 Hres4].
  unfold flight_mode_commands. cbn [phone_mode_cycle]. unfold bind_fuel, bind.
  destruct (phone_mode_phase fuel (py "AT+CFUN=1") w) as [res wa].
  cbn [fst snd] in Hfile, Hres, Hfile4, Hres4 |- *. subst res.
  destruct (phone_mode_phase fuel (py "AT+CFUN=4") wa) as [res wb].
  cbn [fst snd] in Hfile4, Hres4 |- *. subst res. cbn [ret fst snd].
  split; [reflexivity|].
  rewrite Hfile4, Hfile, <- app_assoc. reflexivity.
Qed.

(** C4: in flight-cycle mode, over the command pair enable-radio,
    disable-radio, when the registration check of each of the two enable
    phases of the run is answered with a text that holds the attachment
    indicator, two rounds of the cycle come to their end and leave in the
    session log file exactly four records: the clock at the first check
    with the pumping marker, the clock after the first disable command
    with the flight-mode marker, and the same two for the second
    round. *)
Theorem two_flight_cycles_log_markers
    (fuel : nat) (sig_commands config_commands : list str) (w : world) :
  let boot := configure_sim_module config_commands TIMES_RETRY w in
  let w0 := snd (send_each sig_commands 2 (snd boot)) in
  let check1 :=
    com_port_read_write cops_check_command 2
      (snd (sleep 10 (snd (com_port_read_write (py "AT+CFUN=1") 1 w0)))) in
  let disable1 :=
    com_port_read_write (py "AT+CFUN=4") 1
      (snd (phone_mode_phase fuel (py "AT+CFUN=1") w0)) in
  let w1 := snd (phone_mode_cycle fuel flight_mode_commands w0) in
  let check2 :=
    com_port_read_write cops_check_command 2
      (snd (sleep 10 (snd (com_port_read_write (py "AT+CFUN=1") 1 w1)))) in
  let disable2 :=
    com_port_read_write (py "AT+CFUN=4") 1
      (snd (phone_mode_phase fuel (py "AT+CFUN=1") w1)) in
  (5 < fuel)%nat ->
  truthy (fst boot) = true ->
  attached (fst check1) = true ->
  attached (fst check2) = true ->
  fst (pump_modem_data_with_flight_mode 2 fuel sig_commands config_commands
         flight_mode_commands w) = Some tt
  /\ w_file (snd (pump_modem_data_with_flight_mode 2 fuel sig_commands
                    config_commands flight_mode_commands w))
     = w_file w
       ++ [time_strftime (w_env (snd check1)) ++ pumping_marker;
           time_strftime (w_env (snd disable1)) ++ flight_marker;
           time_strftime (w_env (snd check2)) ++ pumping_marker;
           time_strftime (w_env (snd disable2)) ++ flight_marker].
Proof.
  cbv zeta. intros Hfuel Hcfg Hc1 Hc2.
  unfold pump_modem_data_with_flight_mode, bind.
  pose proof (configure_sim_module_file config_commands TIMES_RETRY w) as Hc.
  destruct (configure_sim_module config_commands TIMES_RETRY w) as [res wc].
  cbn [fst snd] in Hc, Hcfg, Hc1, Hc2 |- *. rewrite Hcfg.
  destruct (send_each_trace sig_commands 2 wc) as (xs & _ & _ & Hs).
  destruct (send_each sig_commands 2 wc) as [u w0].
  cbn [fst snd] in Hs, Hc1, Hc2 |- *.
  destruct (phone_mode_cycle_flight w0 Hfuel Hc1) as [Ha Hfa].
  destruct (phone_mode_cycle_flight
              (snd (phone_mode_cycle fuel flight_mode_commands w0)) Hfuel Hc2)
    as [Hb Hfb].
  cbn [flight_cycles]. unfold bind_fuel, bind.
  destruct (phone_mode_cycle fuel flight_mode_commands w0) as [ra wa].
  cbn [fst snd] in Ha, Hfa, Hb, Hfb |- *. subst ra.
  destruct (phone_mode_cycle fuel flight_mode_commands wa) as [rb wb].
  cbn [fst snd] in Hb, Hfb |- *. subst rb. cbn [ret fst snd].
  split; [reflexivity|].
  rewrite Hfb, Hfa, Hs, Hc, <- app_assoc. reflexivity.
Qed.

(** *** Exchanges without a response

    The guards [is not None] of the source: a command whose exchange
    raised is neither a success nor a failure of the configuration or of
    the pump, and the next command is sent. *)

Lemma configure_skips_unanswered_command
    (command : str) (rest : list str) (acc : list (str * str))
    (w w1 : world) :
  com_port_read_write command 2 w = (None, w1) ->
  configure_commands (command :: rest) acc w = configure_commands rest acc w1.
Proof. intros Hx. simpl. unfold bind. now rewrite Hx. Qed.

Lemma pump_goes_on_after_unanswered_payload
    (fuel : nat) (n : Z) (w w1 w2 : world) (sr : option str) :
  (n <> 0)%Z ->
  com_port_read_write (py "AT#SSEND=1") 5 w = (sr, w1) ->
  com_port_read_write pump_dummy_msg 5 w1 = (None, w2) ->
  pump_messages (S fuel) n w = pump_messages fuel (n - 1) w2.
Proof.
  intros Hn H1 H2. simpl. apply Z.eqb_neq in Hn. rewrite Hn.
  unfold bind. now rewrite H1, H2.
Qed.

End Session.

(** *** The theorems at work on the bench modems *)

Lemma configure_aborts_at_failed_command_witness :
  configure_sim_module
    ([py "AT"; py "AT+COPS=2"] ++ py "AT+COPS=0" :: [py "AT#REBOOT"]) 15
    (scripted_world [Some (py "OK"); None; Some (py "ERROR"); Some (py "OK")])
  = (PyFalse, @World Scripted [Some (py "OK")]
       [(framed (py "AT"), Some (py "OK")); (framed (py "AT+COPS=2"), None);
        (framed (py "AT+COPS=0"), Some (py "ERROR"))] []).
Proof.
  refine (proj1 (@configure_aborts_at_failed_command Scripted
    [py "AT"; py "AT+COPS=2"] [py "AT#REBOOT"] (py "AT+COPS=0") 15
    (scripted_world [Some (py "OK"); None; Some (py "ERROR"); Some (py "OK")])
    (@World Scripted [Some (py "ERROR"); Some (py "OK")]
       [(framed (py "AT"), Some (py "OK")); (framed (py "AT+COPS=2"), None)] [])
    _ [(py "AT", py "OK")] (py "ERROR") _ _ _)); reflexivity.
Defined.

Lemma registration_polling_is_bounded_witness :
  (0 <= 3)%Z /\
  exists responses : list (option str),
    w_wire (snd (configure_sim_module [py "AT"] 3
                   (scripted_world [Some (py "OK"); Some cops_searching; None;
                                    Some cops_roaming])))
    = [(framed (py "AT"), Some (py "OK"))] ++ polled responses
    /\ (Z.of_nat (List.length responses) <= 3)%Z.
Proof.
  split; [lia|].
  destruct (@registration_polling_is_bounded Scripted [py "AT"] 3
              (scripted_world [Some (py "OK"); Some cops_searching; None;
                               Some cops_roaming])
              (@World Scripted [Some cops_searching; None; Some cops_roaming]
                 [(framed (py "AT"), Some (py "OK"))] [])
              [(py "AT", py "OK")])
    as (responses & Hwire & Hlen & _); [lia | reflexivity |].
  exists responses. split; [exact Hwire | exact Hlen].
Defined.

Lemma registration_success_is_digit_8_witness :
  await_registration [0%Z] (scripted_world [Some cops_roaming])
  = (PyTrue,
     @World Scripted [] [(framed cops_check_command, Some cops_roaming)] [])
  /\ await_registration [0%Z; 1%Z]
       (scripted_world [Some cops_searching; Some cops_roaming])
     = await_registration [1%Z]
         (@World Scripted [Some cops_roaming]
            [(framed cops_check_command, Some cops_searching)] []).
Proof.
  destruct (@registration_success_is_digit_8 Scripted)
    as (Hpoll & _ & Hroaming & Hsearching).
  split.
  - apply (Hpoll 0%Z [] (scripted_world [Some cops_roaming])
             (@World Scripted []
                [(framed cops_check_command, Some cops_roaming)] [])
             cops_roaming); [reflexivity | exact Hroaming].
  - apply (Hpoll 0%Z [1%Z]
             (scripted_world [Some cops_searching; Some cops_roaming])
             (@World Scripted [Some cops_roaming]
                [(framed cops_check_command, Some cops_searching)] [])
             cops_searching); [reflexivity | exact Hsearching].
Defined.

Lemma two_flight_cycles_log_markers_witness :
  fst (pump_modem_data_with_flight_mode 2 6 signal_commands cfg_commands
         flight_mode_commands steady_world) = Some tt
  /\ w_file (snd (pump_modem_data_with_flight_mode 2 6 signal_commands
                    cfg_commands flight_mode_commands steady_world))
     = [bench_clock ++ pumping_marker; bench_clock ++ flight_marker;
        bench_clock ++ pumping_marker; bench_clock ++ flight_marker].
Proof.
  apply (@two_flight_cycles_log_markers Steady 6 signal_commands cfg_commands
           steady_world).
  - lia.
  - vm_compute. reflexivity.
  - vm_compute. reflexivity.
  - vm_compute. reflexivity.
Defined.

Lemma tcp_probe_runs_every_stage_witness :
  exists socket_lines : list str,
    fst (tcp_connection_test tcp_connect_commands message_to_server
           message_from_server socket_commands
           (scripted_world
              [Some (py "#SGACT: 1,0"); Some (py "NO CARRIER");
               Some (py "ERROR"); Some (py "ERROR"); Some (py "ERROR"); None;
               Some (py "#SI: 1,0,0,0,0"); Some (py "#SS: 1,0")]))
    = join (py " ") (py "#MSG: None" :: socket_lines)
    /\ (List.length socket_lines <= 2)%nat.
Proof.
  destruct (@tcp_probe_runs_every_stage Scripted tcp_connect_commands
              message_to_server message_from_server socket_commands
              (scripted_world
                 [Some (py "#SGACT: 1,0"); Some (py "NO CARRIER");
                  Some (py "ERROR"); Some (py "ERROR"); Some (py "ERROR");
                  None; Some (py "#SI: 1,0,0,0,0"); Some (py "#SS: 1,0")]))
    as (xs & Hwire & _ & Hmarker).
  vm_compute in Hwire. subst xs.
  exact (Hmarker eq_refl).
Defined.

Lemma pump_burst_is_bounded_witness :
  (0 <= 3)%Z /\
  exists (context server socket : option str)
         (rounds : list (option str * option str)),
    fst (pump_data_to_server 4 3
           (scripted_world
              [Some (py "OK"); Some (py "CONNECT"); Some (py ">");
               Some (py "OK"); Some (py ">"); Some (py "ERROR");
               Some (py "OK")])) = Some tt
    /\ (Z.of_nat (List.length rounds) <= 3)%Z.
Proof.
  split; [lia|].
  destruct (@pump_burst_is_bounded Scripted 4 3
              (scripted_world
                 [Some (py "OK"); Some (py "CONNECT"); Some (py ">");
                  Some (py "OK"); Some (py ">"); Some (py "ERROR");
                  Some (py "OK")]))
    as (context & server & socket & rounds & Hend & _ & Hlen & _);
    [lia | simpl; lia |].
  exists context, server, socket, rounds. split; [exact Hend | exact Hlen].
Defined.

Lemma inconclusive_poll_consumes_one_attempt_witness :
  await_registration [0%Z; 1%Z] (scripted_world [None; Some cops_roaming])
  = await_registration [1%Z]
      (@World Scripted [Some cops_roaming]
         [(framed cops_check_command, None)] [])
  /\ await_registration [0%Z; 1%Z]
       (scripted_world [Some (py "  "); Some cops_roaming])
     = await_registration [1%Z]
         (@World Scripted [Some cops_roaming]
            [(framed cops_check_command, Some [])] []).
Proof.
  split.
  - apply (@inconclusive_poll_consumes_one_attempt Scripted 0%Z [1%Z]
             (scripted_world [None; Some cops_roaming])
             (@World Scripted [Some cops_roaming]
                [(framed cops_check_command, None)] [])
             None); [reflexivity | now left].
  - apply (@inconclusive_poll_consumes_one_attempt Scripted 0%Z [1%Z]
             (scripted_world [Some (py "  "); Some cops_roaming])
             (@World Scripted [Some cops_roaming]
                [(framed cops_check_command, Some [])] [])
             (Some [])); [reflexivity | now right].
Defined.

(** *** Exchanges without a response, on the scripted modem

    The first configuration command gets no response at all, so no OK;
    the second command is sent all the same, and the function returns
    [True] after the poll. *)
Lemma unanswered_command_does_not_abort_configuration :
  fst (com_port_read_write (py "AT") 2
         (scripted_world [None; Some (py "OK"); Some cops_roaming])) = None
  /\ fst (configure_sim_module [py "AT"; py "AT+COPS=2"] 15
            (scripted_world [None; Some (py "OK"); Some cops_roaming]))
     = PyTrue
  /\ w_wire (snd (configure_sim_module [py "AT"; py "AT+COPS=2"] 15
                    (scripted_world [None; Some (py "OK"); Some cops_roaming])))
     = [(framed (py "AT"), None);
        (framed (py "AT+COPS=2"), Some (py "OK"));
        (framed cops_check_command, Some cops_roaming)].
Proof. repeat split. Qed.

(** The first payload of a burst of two gets no response at all, so no
    OK; the second payload is sent all the same. *)
Lemma unanswered_payload_does_not_stop_pump :
  fst (pump_data_to_server 3 2
         (scripted_world
            [Some (py "OK"); Some (py "CONNECT"); Some (py ">"); None;
             Some (py ">"); Some (py "OK"); Some (py "OK")])) = Some tt
  /\ w_wire (snd (pump_data_to_server 3 2
                    (scripted_world
                       [Some (py "OK"); Some (py "CONNECT"); Some (py ">");
                        None; Some (py ">"); Some (py "OK");
                        Some (py "OK")])))
     = [(framed (py "AT#SGACT=1,1"), Some (py "OK"));
        (framed socket_dial, Some (py "CONNECT"));
        (framed (py "AT#SSEND=1"), Some (py ">"));
        (framed pump_dummy_msg, None);
        (framed (py "AT#SSEND=1"), Some (py ">"));
        (framed pump_dummy_msg, Some (py "OK"));
        (framed (py "AT#SH=1"), Some (py "OK"))].
Proof. split; vm_compute; reflexivity. Qed.

End LoggingFacts.

(** * Further properties *)

(** ** Splitting *)

Module SplitFacts.

Lemma split_from_nonempty (sep : str) :
  forall (s : str) (skip : nat) (cur : str), split_from sep skip cur s <> [].
Proof.
  induction s as [|c s IH]; intros skip cur; simpl; [discriminate|].
  destruct skip as [|skip]; [|apply IH].
  destruct (startswith sep (c :: s)); [discriminate | apply IH].
Qed.

Lemma startswith_char (c x : N) (s : str) :
  startswith [c] (x :: s) = (c =? x)%N.
Proof. simpl. apply andb_true_r. Qed.

(** Without the separator in it, a text is one part. *)
Lemma split_from_absent (c : N) (s : str) :
  forall cur : str, ~ In c s -> split_from [c] 0 cur s = [cur ++ s].
Proof.
  induction s as [|x s IH]; intros cur Hc.
  - simpl. now rewrite app_nil_r.
  - cbn [split_from]. rewrite startswith_char.
    destruct (c =? x)%N eqn:Hx.
    + apply N.eqb_eq in Hx. subst x. exfalso. apply Hc. now left.
    + rewrite IH by (intros H; apply Hc; now right).
      now rewrite <- app_assoc.
Qed.

(** The first separator ends the first part. *)
Lemma split_from_first (c : N) (a b : str) :
  forall cur : str, ~ In c a ->
  split_from [c] 0 cur (a ++ c :: b) = (cur ++ a) :: split_from [c] 0 [] b.
Proof.
  induction a as [|x a IH]; intros cur Hc.
  - cbn [app split_from]. rewrite startswith_char, N.eqb_refl.
    now rewrite app_nil_r.
  - cbn [app split_from]. rewrite startswith_char.
    destruct (c =? x)%N eqn:Hx.
    + apply N.eqb_eq in Hx. subst x. exfalso. apply Hc. now left.
    + rewrite IH by (intros H; apply Hc; now right).
      now rewrite <- app_assoc.
Qed.

(** The first part starts with whatever comes before the first
    separator. *)
Lemma split_from_head (c : N) (p rest : str) :
  forall cur : str, ~ In c p ->
  exists (q : str) (more : list str),
    split_from [c] 0 cur (p ++ rest) = (cur ++ p ++ q) :: more.
Proof.
  intros cur Hp.
  assert (Hrest : forall cur0 : str, exists (q : str) (more : list str),
            split_from [c] 0 cur0 rest = (cur0 ++ q) :: more).
  { induction rest as [|x rest IH]; intros cur0.
    - exists [], []. simpl. now rewrite app_nil_r.
    - cbn [split_from]. rewrite startswith_char.
      destruct (c =? x)%N.
      + exists [], (split_from [c] 0 [] rest). now rewrite app_nil_r.
      + destruct (IH (cur0 ++ [x])) as (q & more & ->).
        exists (x :: q), more. now rewrite <- app_assoc. }
  revert cur. induction p as [|x p IH]; intros cur.
  - destruct (Hrest cur) as (q & more & Hq). exists q, more. exact Hq.
  - cbn [app split_from]. rewrite startswith_char.
    destruct (c =? x)%N eqn:Hx.
    + apply N.eqb_eq in Hx. subst x. exfalso. apply Hp. now left.
    + destruct (IH (fun H => Hp (or_intror H)) (cur ++ [x]))
        as (q & more & ->).
      exists q, more. now rewrite <- app_assoc.
Qed.

Lemma drop_last_app (s : str) (c : N) : drop_last (s ++ [c]) = s.
Proof. apply removelast_last. Qed.

End SplitFacts.
Import SplitFacts.

(** ** The parser *)

Module ParserExtras.
Import Parser ParserFacts.

(** *** Signal quality *)

Lemma rsrp_quality_range (x : pynum) :
  (10 <= rsrp_quality x <= 40)%Z.
Proof.
  unfold rsrp_quality.
  destruct (py_ge x (-84)), (py_ge x (-102)), (py_ge x (-111)); lia.
Qed.

Lemma rssi_quality_range (x : pynum) :
  (10 <= rssi_quality x <= 40)%Z.
Proof.
  unfold rssi_quality.
  destruct (py_ge x (-65)), (py_ge x (-75)), (py_ge x (-85)); lia.
Qed.

Lemma rsrq_quality_range (rssi rsrq : pynum) :
  (10 <= rsrq_quality rssi rsrq <= 40)%Z.
Proof.
  unfold rsrq_quality. destruct (py_ge rsrq (-5)), (py_ge rssi (-6)); lia.
Qed.

Lemma sinr_quality_range (x : pynum) :
  (10 <= sinr_quality x <= 40)%Z.
Proof.
  unfold sinr_quality.
  destruct (py_ge x (125 # 10)), (py_ge x 10), (py_ge x 7); lia.
Qed.

Lemma quarter_le (a b : Z) :
  (a <= b)%Z -> inject_Z a / 4 <= inject_Z b / 4.
Proof.
  intros H. unfold Qdiv, Qmult, Qinv, Qle, inject_Z. simpl. lia.
Qed.

Lemma quality_range (rsrp rssi rsrq sinr : pynum) :
  10 <= calculate_signal_quality rsrp rssi rsrq sinr <= 40.
Proof.
  pose proof (rsrp_quality_range rsrp).
  pose proof (rssi_quality_range rssi).
  pose proof (rsrq_quality_range rssi rsrq).
  pose proof (sinr_quality_range sinr).
  unfold calculate_signal_quality. split.
  - apply Qle_trans with (inject_Z 40 / 4); [discriminate|].
    apply quarter_le. lia.
  - apply Qle_trans with (inject_Z 160 / 4); [|discriminate].
    apply quarter_le. lia.
Qed.

(** X1: the quality is never below 10 nor above 40, whatever the four
    measurements are (infinities and NaN included); it is 40 exactly when
    all four components are 40 and 10 exactly when all four are 10. *)
Theorem signal_quality_bounds (rsrp rssi rsrq sinr : pynum) :
  10 <= calculate_signal_quality rsrp rssi rsrq sinr <= 40
  /\ (calculate_signal_quality rsrp rssi rsrq sinr == 40 <->
      rsrp_quality rsrp = 40%Z /\ rssi_quality rssi = 40%Z
      /\ rsrq_quality rssi rsrq = 40%Z /\ sinr_quality sinr = 40%Z)
  /\ (calculate_signal_quality rsrp rssi rsrq sinr == 10 <->
      rsrp_quality rsrp = 10%Z /\ rssi_quality rssi = 10%Z
      /\ rsrq_quality rssi rsrq = 10%Z /\ sinr_quality sinr = 10%Z).
Proof.
  split; [apply quality_range|].
  pose proof (rsrp_quality_range rsrp).
  pose proof (rssi_quality_range rssi).
  pose proof (rsrq_quality_range rssi rsrq).
  pose proof (sinr_quality_range sinr).
  unfold calculate_signal_quality, Qdiv, Qmult, Qinv, Qeq, inject_Z.
  simpl. split; split; intros Hq; lia.
Qed.

Lemma py_ge_upward (q q' c : Q) :
  q <= q' -> py_ge (Real q) c = true -> py_ge (Real q') c = true.
Proof.
  simpl. intros Hle H. apply Qle_bool_iff in H. apply Qle_bool_iff.
  now apply Qle_trans with q.
Qed.

Ltac upward :=
  repeat match goal with
  | Hle : ?q <= ?q', H : py_ge (Real ?q) ?c = true,
    H' : py_ge (Real ?q') ?c = false |- _ =>
      rewrite (py_ge_upward c Hle H) in H'; discriminate
  end.

Lemma rsrp_quality_monotone (q q' : Q) :
  q <= q' -> (rsrp_quality (Real q) <= rsrp_quality (Real q'))%Z.
Proof.
  intros Hle. unfold rsrp_quality.
  destruct (py_ge (Real q) (-84)) eqn:A, (py_ge (Real q') (-84)) eqn:A';
  destruct (py_ge (Real q) (-102)) eqn:B, (py_ge (Real q') (-102)) eqn:B';
  destruct (py_ge (Real q) (-111)) eqn:C, (py_ge (Real q') (-111)) eqn:C';
  upward; lia.
Qed.

Lemma rssi_quality_monotone (q q' : Q) :
  q <= q' -> (rssi_quality (Real q) <= rssi_quality (Real q'))%Z.
Proof.
  intros Hle. unfold rssi_quality.
  destruct (py_ge (Real q) (-65)) eqn:A, (py_ge (Real q') (-65)) eqn:A';
  destruct (py_ge (Real q) (-75)) eqn:B, (py_ge (Real q') (-75)) eqn:B';
  destruct (py_ge (Real q) (-85)) eqn:C, (py_ge (Real q') (-85)) eqn:C';
  upward; lia.
Qed.

Lemma rsrq_quality_monotone (s s' q q' : Q) :
  s <= s' -> q <= q' ->
  (rsrq_quality (Real s) (Real q) <= rsrq_quality (Real s') (Real q'))%Z.
Proof.
  intros Hs Hq. unfold rsrq_quality.
  destruct (py_ge (Real q) (-5)) eqn:A, (py_ge (Real q') (-5)) eqn:A';
  destruct (py_ge (Real s) (-6)) eqn:B, (py_ge (Real s') (-6)) eqn:B';
  upward; lia.
Qed.

Lemma sinr_quality_monotone (q q' : Q) :
  q <= q' -> (sinr_quality (Real q) <= sinr_quality (Real q'))%Z.
Proof.
  intros Hle. unfold sinr_quality.
  destruct (py_ge (Real q) (125 # 10)) eqn:A,
           (py_ge (Real q') (125 # 10)) eqn:A';
  destruct (py_ge (Real q) 10) eqn:B, (py_ge (Real q') 10) eqn:B';
  destruct (py_ge (Real q) 7) eqn:C, (py_ge (Real q') 7) eqn:C';
  upward; lia.
Qed.

(** X2: on finite measurements the quality is monotone: raising any of
    rsrp, rssi, rsrq, sinr never lowers it. *)
Theorem signal_quality_monotone (rsrp rssi rsrq sinr rsrp' rssi' rsrq' sinr' : Q) :
  rsrp <= rsrp' -> rssi <= rssi' -> rsrq <= rsrq' -> sinr <= sinr' ->
  calculate_signal_quality (Real rsrp) (Real rssi) (Real rsrq) (Real sinr)
  <= calculate_signal_quality (Real rsrp') (Real rssi') (Real rsrq')
       (Real sinr').
Proof.
  intros H1 H2 H3 H4. unfold calculate_signal_quality. apply quarter_le.
  pose proof (rsrp_quality_monotone H1).
  pose proof (rssi_quality_monotone H2).
  pose proof (rsrq_quality_monotone H2 H3).
  pose proof (sinr_quality_monotone H4).
  lia.
Qed.

Lemma signal_quality_monotone_witness :
  calculate_signal_quality (Real (-112)) (Real (-95)) (Real (-10)) (Real 5)
  <= calculate_signal_quality (Real (-90)) (Real (-70)) (Real (-3)) (Real 13).
Proof.
  apply signal_quality_monotone; discriminate.
Defined.

(** X3: a marker coloured from a computed quality is never green: the
    quality does not exceed 40, the bound of [lightgreen]. *)
Theorem computed_quality_is_never_green (rsrp rssi rsrq sinr : pynum) :
  get_color (Real (calculate_signal_quality rsrp rssi rsrq sinr))
  = py "red"
  \/ get_color (Real (calculate_signal_quality rsrp rssi rsrq sinr))
     = py "orange"
  \/ get_color (Real (calculate_signal_quality rsrp rssi rsrq sinr))
     = py "lightgreen".
Proof.
  destruct (quality_range rsrp rssi rsrq sinr) as [_ Hup].
  unfold get_color. simpl py_le.
  destruct (Qle_bool _ 20); [now left|].
  destruct (Qle_bool _ 30); [right; now left|].
  apply Qle_bool_iff in Hup. rewrite Hup. right. now right.
Qed.

(** *** The SINR code *)

(** X4: [map_sinr_to_db] returns a value exactly for an [int] (or [bool])
    between 0 and 250; the value is the code divided by 5, rounded down,
    less 20, so it lies between -20 and 30; everything else raises
    [ValueError]. *)
Theorem map_sinr_to_db_range (sinr_value : pyobj) :
  match map_sinr_to_db sinr_value with
  | Returns db =>
      exists v : Z,
        int_value sinr_value = Some v /\ (0 <= v <= 250)%Z
        /\ (-20 <= db <= 30)%Z
        /\ (5 * (db + 20) <= v < 5 * (db + 20) + 5)%Z
  | RaisesValueError _ =>
      int_value sinr_value = None
      \/ exists v : Z,
           int_value sinr_value = Some v /\ (v < 0 \/ 250 < v)%Z
  end.
Proof.
  unfold map_sinr_to_db.
  destruct (int_value sinr_value) as [v|]; [|now left].
  destruct ((v <? 0) || (250 <? v))%Z eqn:Hr.
  - right. exists v. split; [reflexivity|].
    apply orb_true_iff in Hr as [Hr|Hr]; apply Z.ltb_lt in Hr; lia.
  - apply orb_false_iff in Hr as [H0 H250].
    apply Z.ltb_ge in H0. apply Z.ltb_ge in H250.
    exists v. split; [reflexivity|]. split; [lia|].
    pose proof (Z.div_mod v 5 ltac:(lia)).
    pose proof (Z.mod_pos_bound v 5 ltac:(lia)).
    assert (0 <= v / 5 <= 50)%Z.
    { split; [apply Z.div_pos; lia|].
      apply Z.div_le_upper_bound; lia. }
    lia.
Qed.

(** *** Lines of the modem log *)

Lemma item_or_none_nth (parts : list str) (i : nat) :
  item_or_none parts i = nth_error parts i.
Proof.
  unfold item_or_none. destruct (i <? List.length parts)%nat eqn:Hi;
    [reflexivity|].
  apply Nat.ltb_ge in Hi. symmetry. now apply nth_error_None.
Qed.

Lemma parse_line_fields (line : str) :
  parse_line line
  = Fields (drop_last (hd [] (split_from (py "#") 0 [] line)))
           (nth_error (split_from (py "#") 0 [] line) 1)
           (nth_error (split_from (py "#") 0 [] line) 2)
           (nth_error (split_from (py "#") 0 [] line) 3)
           (nth_error (split_from (py "#") 0 [] line) 4)
           (nth_error (split_from (py "+") 0 [] line) 1)
           (nth_error (split_from (py "+") 0 [] line) 2).
Proof.
  unfold parse_line.
  change (split (py "#") line) with (Some (split_from (py "#") 0 [] line)).
  change (split (py "+") line) with (Some (split_from (py "+") 0 [] line)).
  pose proof (@split_from_nonempty (py "#") line 0%nat []) as Hne.
  destruct (split_from (py "#") 0 [] line) as [|p0 parts];
    [contradiction|].
  rewrite !item_or_none_nth. reflexivity.
Qed.

(** X5: the [except] branch of [parse_line] is never taken: every line
    gives seven fields, so no line is lost when [parse_pump_modem_log]
    unpacks them, and the log of n lines gives n rows. *)
Theorem parse_line_always_seven_fields :
  (forall line : str,
     exists (timestamp : str) (f1 f2 f3 f4 f5 f6 : option str),
       parse_line line = Fields timestamp f1 f2 f3 f4 f5 f6)
  /\ (forall lines : list str,
        List.length (parse_pump_modem_log lines) = List.length lines).
Proof.
  split.
  - intros line. rewrite parse_line_fields. now repeat eexists.
  - induction lines as [|line lines IH]; [reflexivity|].
    cbn [parse_pump_modem_log]. rewrite parse_line_fields.
    simpl. now rewrite IH.
Qed.

End ParserExtras.

(** ** Stripping *)

Module StripFacts.











End StripFacts.
Import StripFacts.

(** ** The modem command session, further *)

Module LoggingExtras.
Import Logging Bench Records Bench2 LoggingFacts.

Section Session.

Context {E : Environment}.


(** *** Outcomes of the configuration *)

Lemma configure_commands_trace (cmds : list str) :
  forall (acc : list (str * str)) (w : world),
  exists xs : list (str * option str),
    w_wire (snd (configure_commands cmds acc w)) = w_wire w ++ xs
    /\ map fst xs = map framed (firstn (List.length xs) cmds)
    /\ match fst (configure_commands cmds acc w) with
       | Some _ =>
           List.length xs = List.length cmds
           /\ Forall (fun x => passes (snd x) = true) xs
       | None =>
           exists (ys : list (str * option str)) (c r : str),
             xs = ys ++ [(c, Some r)] /\ str_in (py "OK") r = false
             /\ Forall (fun x => passes (snd x) = true) ys
       end.
Proof.
  induction cmds as [|c cmds IH]; intros acc w.
  - exists []. simpl. rewrite app_nil_r. repeat split; auto.
  - cbn [configure_commands]. unfold bind.
    destruct (com_port_read_write c 2 w) as [r w1] eqn:Hx.
    apply com_port_read_write_effect in Hx as [Hw _].
    assert (Hgo : forall acc1, passes r = true ->
      exists xs : list (str * option str),
        w_wire (snd (configure_commands cmds acc1 w1)) = w_wire w ++ xs
        /\ map fst xs = map framed (firstn (List.length xs) (c :: cmds))
        /\ match fst (configure_commands cmds acc1 w1) with
           | Some _ =>
               List.length xs = List.length (c :: cmds)
               /\ Forall (fun x => passes (snd x) = true) xs
           | None =>
               exists (ys : list (str * option str)) (c0 r0 : str),
                 xs = ys ++ [(c0, Some r0)] /\ str_in (py "OK") r0 = false
                 /\ Forall (fun x => passes (snd x) = true) ys
           end).
    { intros acc1 Hpass. destruct (IH acc1 w1) as (xs & H1 & H2 & H3).
      exists ((framed c, r) :: xs).
      rewrite H1, Hw, <- app_assoc. split; [reflexivity|].
      split; [simpl; now rewrite H2|].
      destruct (fst (configure_commands cmds acc1 w1)).
      - destruct H3 as [Hl Hall]. split; [simpl; now rewrite Hl|].
        now constructor.
      - destruct H3 as (ys & c0 & r0 & -> & Hr0 & Hall).
        exists ((framed c, r) :: ys), c0, r0. repeat split; auto. }
    destruct r as [r|]; [|now apply Hgo].
    destruct (str_in (py "OK") r) eqn:Hok; [now apply Hgo|].
    exists [(framed c, Some r)]. simpl. split; [exact Hw|].
    split; [reflexivity|].
    exists [], (framed c), r. repeat split; auto.
Qed.

(** X7: the three outcomes of [configure_sim_module].  Its exchanges are
    a run of the configuration commands, from the first on, and then
    polls of the operator selection.  [False]: the last configuration
    exchange was answered with a text without OK, and there is no poll.
    [True]: all configuration commands were exchanged, none answered
    with a text without OK, and the last poll, alone, holds 8.  [None]:
    the same for the configuration, and max_retries polls (none for a
    negative count) without an 8. *)
Theorem configure_sim_module_outcomes
    (cmds : list str) (max_retries : Z) (w : world) :
  exists (xs : list (str * option str)) (ps : list (option str)),
    w_wire (snd (configure_sim_module cmds max_retries w))
    = w_wire w ++ xs ++ polled ps
    /\ map fst xs = map framed (firstn (List.length xs) cmds)
    /\ match fst (configure_sim_module cmds max_retries w) with
       | PyFalse =>
           ps = []
           /\ exists (ys : list (str * option str)) (c r : str),
                xs = ys ++ [(c, Some r)] /\ str_in (py "OK") r = false
                /\ Forall (fun x => passes (snd x) = true) ys
       | PyTrue =>
           List.length xs = List.length cmds
           /\ Forall (fun x => passes (snd x) = true) xs
           /\ (List.length ps <= Z.to_nat max_retries)%nat
           /\ exists (before : list (option str)) (r : str),
                ps = before ++ [Some r] /\ In 56%N r
                /\ Forall (fun o => attached o = false) before
       | PyNone =>
           List.length xs = List.length cmds
           /\ Forall (fun x => passes (snd x) = true) xs
           /\ List.length ps = Z.to_nat max_retries
           /\ Forall (fun o => attached o = false) ps
       end.
Proof.
  unfold configure_sim_module, bind.
  destruct (configure_commands_trace cmds [] w) as (xs & H1 & H2 & H3).
  destruct (configure_commands cmds [] w) as [[acc|] w1];
    cbn [fst snd] in H1, H3.
  - destruct (sleep 2 w1) as [u w2] eqn:Hs.
    assert (Hw2 : w_wire w2 = w_wire w1)
      by (change w2 with (snd (u, w2)); rewrite <- Hs; reflexivity).
    destruct (await_registration_trace (range max_retries) w2)
      as (ps & P1 & _ & P3 & P4).
    rewrite range_length in P3, P4.
    exists xs, ps. rewrite P1, Hw2, H1, <- app_assoc.
    split; [reflexivity|]. split; [exact H2|].
    destruct H3 as [Hl Hall].
    destruct P4 as [(-> & before & r & Hps & Hin & Hb) | (-> & Hlen & Hb)].
    + repeat split; auto. now exists before, r.
    + repeat split; auto.
  - exists xs, []. simpl. rewrite app_nil_r.
    split; [exact H1|]. split; [exact H2|]. split; [reflexivity | exact H3].
Qed.

(** X8: with a retry count of zero or less no poll is made and
    [configure_sim_module] never returns [True], whatever the modem
    answers: its callers then never start their loop. *)
Theorem no_success_without_retries
    (cmds : list str) (max_retries : Z) (w : world) :
  (max_retries <= 0)%Z ->
  truthy (fst (configure_sim_module cmds max_retries w)) = false
  /\ snd (configure_sim_module cmds max_retries w)
     = match configure_commands cmds [] w with
       | (Some _, w1) => snd (sleep 2 w1)
       | (None, w1) => w1
       end.
Proof.
  intros Hmax. unfold configure_sim_module, bind.
  assert (Hr : range max_retries = []).
  { unfold range. replace (Z.to_nat max_retries) with 0%nat by lia.
    reflexivity. }
  rewrite Hr.
  destruct (configure_commands cmds [] w) as [[acc|] w1]; simpl; auto.
Qed.

Lemma await_registration_unattached (attempts : list Z) :
  (forall w0 : world,
     attached (fst (com_port_read_write cops_check_command 2 w0)) = false) ->
  forall w : world, fst (await_registration attempts w) = PyNone.
Proof.
  intros Hno. induction attempts as [|a attempts IH]; intros w;
    [reflexivity|].
  cbn [await_registration]. unfold bind.
  pose proof (Hno w) as Hw.
  destruct (com_port_read_write cops_check_command 2 w) as [r w1].
  destruct r as [r|]; [|apply IH].
  unfold attached in Hw. cbn [fst] in Hw. rewrite Hw. apply IH.
Qed.

(** X9: when no registration check is ever answered with a text that
    holds 8, neither mode starts: each returns in the world the
    configuration left, without a signal query, and the session log file
    is as it was. *)
Theorem unattached_modem_starts_no_mode
    (cycles fuel : nat) (sig_commands config_commands phone_mode_commands
       : list str)
    (rf_command nw_eps_command nw_command : str) (w : world) :
  (forall w0 : world,
     attached (fst (com_port_read_write cops_check_command 2 w0)) = false) ->
  read_and_log_modem_data cycles sig_commands rf_command nw_eps_command
    nw_command config_commands w
  = (tt, snd (configure_sim_module config_commands TIMES_RETRY w))
  /\ pump_modem_data_with_flight_mode cycles fuel sig_commands
       config_commands phone_mode_commands w
     = (Some tt, snd (configure_sim_module config_commands TIMES_RETRY w))
  /\ w_file (snd (configure_sim_module config_commands TIMES_RETRY w))
     = w_file w.
Proof.
  intros Hno.
  assert (Hfalse :
    truthy (fst (configure_sim_module config_commands TIMES_RETRY w)) = false).
  { unfold configure_sim_module, bind.
    destruct (configure_commands config_commands [] w) as [[acc|] w1];
      [|reflexivity].
    destruct (sleep 2 w1) as [u w2].
    now rewrite (await_registration_unattached (range TIMES_RETRY) Hno w2). }
  unfold read_and_log_modem_data, pump_modem_data_with_flight_mode, bind.
  pose proof (configure_sim_module_file config_commands TIMES_RETRY w) as Hf.
  destruct (configure_sim_module config_commands TIMES_RETRY w) as [res w1].
  simpl in Hfalse, Hf. rewrite Hfalse. simpl. auto.
Qed.

(** *** The flight cycle *)






(** *** The pump with a negative budget *)

Lemma pump_messages_negative (fuel : nat) :
  (forall w0 : world,
     passes (fst (com_port_read_write pump_dummy_msg 5 w0)) = true) ->
  forall (n : Z) (w : world),
  (n < 0)%Z ->
  fst (pump_messages fuel n w) = None
  /\ sent (snd (pump_messages fuel n w)) = sent w ++ pump_rounds_sent fuel.
Proof.
  intros Hpass. unfold sent.
  induction fuel as [|fuel IH]; intros n w Hn.
  - simpl. now rewrite app_nil_r.
  - cbn [pump_messages].
    replace (n =? 0)%Z with false by (symmetry; apply Z.eqb_neq; lia).
    unfold bind.
    destruct (com_port_read_write (py "AT#SSEND=1") 5 w) as [sr w1] eqn:H1.
    pose proof (Hpass w1) as Hp.
    destruct (com_port_read_write pump_dummy_msg 5 w1) as [mr w2] eqn:H2.
    apply com_port_read_write_effect in H1 as [Hw1 _].
    apply com_port_read_write_effect in H2 as [Hw2 _].
    cbn [fst] in Hp.
    destruct (IH (n - 1)%Z w2 ltac:(lia)) as [R1 R2].
    assert (Hgo : fst (pump_messages fuel (n - 1) w2) = None
                  /\ map fst (w_wire (snd (pump_messages fuel (n - 1) w2)))
                     = map fst (w_wire w) ++ pump_rounds_sent (S fuel)).
    { split; [exact R1|]. rewrite R2, Hw2, Hw1, !map_app, <- !app_assoc.
      reflexivity. }
    destruct mr as [r|]; [|exact Hgo].
    unfold passes in Hp. rewrite Hp. exact Hgo.
Qed.

(** X11: with a negative budget the count never reaches zero: as long as
    no payload is answered with a text without OK, the burst goes on and
    on, round after round, and the socket is never closed. *)
Theorem negative_budget_never_ends (fuel : nat) (n : Z) (w : world) :
  (n < 0)%Z ->
  (forall w0 : world,
     passes (fst (com_port_read_write pump_dummy_msg 5 w0)) = true) ->
  fst (pump_data_to_server fuel n w) = None
  /\ sent (snd (pump_data_to_server fuel n w))
     = sent w ++ framed (py "AT#SGACT=1,1") :: framed socket_dial
              :: pump_rounds_sent fuel.
Proof.
  intros Hn Hpass. unfold pump_data_to_server, bind_fuel, bind.
  destruct (com_port_read_write (py "AT#SGACT=1,1") 5 w) as [cr w1] eqn:H1.
  destruct (com_port_read_write socket_dial 10 w1) as [sr w2] eqn:H2.
  apply com_port_read_write_effect in H1 as [Hw1 _].
  apply com_port_read_write_effect in H2 as [Hw2 _].
  destruct (pump_messages_negative fuel Hpass w2 Hn) as [R1 R2].
  destruct (pump_messages fuel n w2) as [res w3]. simpl in R1, R2.
  subst res. simpl. split; [reflexivity|].
  rewrite R2. unfold sent. rewrite Hw2, Hw1, !map_app, <- !app_assoc.
  reflexivity.
Qed.

(** *** What the probe and the status queries report *)

Lemma scan_message_lines_find (lines acc : list str) :
  scan_message_lines lines acc
  = acc ++ found_line (find (str_in msg_in_response) lines).
Proof.
  induction lines as [|line lines IH]; cbn [scan_message_lines find].
  - simpl. now rewrite app_nil_r.
  - destruct (str_in msg_in_response line); [reflexivity | exact IH].
Qed.

Lemma scan_socket_lines_find (lines acc : list str) :
  scan_socket_lines lines acc
  = acc ++ found_line (find (fun line => startswith (py "#SI: 1") line
                                         || startswith (py "#SS: 1") line)
                            lines).
Proof.
  induction lines as [|line lines IH]; cbn [scan_socket_lines find].
  - simpl. now rewrite app_nil_r.
  - destruct (startswith (py "#SI: 1") line); [reflexivity|].
    destruct (startswith (py "#SS: 1") line); [reflexivity | exact IH].
Qed.

Lemma socket_stage_items (sock_commands : list str) :
  forall (acc : list str) (w : world),
  exists xs : list (str * option str),
    w_wire (snd (socket_stage sock_commands acc w)) = w_wire w ++ xs
    /\ map fst xs = map framed sock_commands
    /\ fst (socket_stage sock_commands acc w)
       = acc ++ flat_map socket_items (map snd xs).
Proof.
  induction sock_commands as [|c sock_commands IH]; intros acc w.
  - exists []. simpl. now rewrite !app_nil_r.
  - cbn [socket_stage]. unfold bind.
    destruct (com_port_read_write c 1 w) as [r w1] eqn:Hx.
    apply com_port_read_write_effect in Hx as [Hw _].
    destruct r as [r|].
    + rewrite scan_socket_lines_find.
      destruct (IH (acc ++ found_line
                      (find (fun line => startswith (py "#SI: 1") line
                                         || startswith (py "#SS: 1") line)
                            (splitlines r))) w1) as (xs & H1 & H2 & H3).
      exists ((framed c, Some r) :: xs).
      rewrite H1, H3, Hw, <- !app_assoc.
      split; [reflexivity|]. split; [simpl; now rewrite H2 | reflexivity].
    + destruct (IH acc w1) as (xs & H1 & H2 & H3).
      exists ((framed c, None) :: xs).
      rewrite H1, H3, Hw, <- !app_assoc.
      split; [reflexivity|]. split; [simpl; now rewrite H2 | reflexivity].
Qed.

Lemma tcp_connection_test_items
    (tcp_commands msg_to_commands : list str) (msg_from_command : str)
    (sock_commands : list str) (w : world) :
  exists (xs1 xs2 xs3 : list (str * option str)) (response : option str),
    w_wire (snd (tcp_connection_test tcp_commands msg_to_commands
                   msg_from_command sock_commands w))
      = w_wire w ++ xs1 ++ xs2 ++ (framed msg_from_command, response) :: xs3
    /\ map fst xs1 = map framed tcp_commands
    /\ map fst xs2 = map framed msg_to_commands
    /\ map fst xs3 = map framed sock_commands
    /\ fst (tcp_connection_test tcp_commands msg_to_commands
              msg_from_command sock_commands w)
       = join (py " ")
           (message_items response ++ flat_map socket_items (map snd xs3)).
Proof.
  unfold tcp_connection_test, bind.
  destruct (send_each_trace tcp_commands 1 w) as (xs1 & A1 & A2 & _).
  destruct (send_each tcp_commands 1 w) as [u1 w1]. simpl in A1.
  destruct (send_each_trace msg_to_commands 1 w1) as (xs2 & B1 & B2 & _).
  destruct (send_each msg_to_commands 1 w1) as [u2 w2]. simpl in B1.
  destruct (com_port_read_write msg_from_command 1 w2) as [r w3] eqn:Hx.
  apply com_port_read_write_effect in Hx as [Hw _].
  match goal with
  | |- context [socket_stage sock_commands ?a w3] => set (acc := a)
  end.
  assert (Hacc : acc = message_items r).
  { unfold acc, message_items. destruct r as [r0|]; [|reflexivity].
    now rewrite scan_message_lines_find. }
  clearbody acc.
  destruct (socket_stage_items sock_commands acc w3) as (xs3 & C1 & C2 & C3).
  destruct (socket_stage sock_commands acc w3) as [res w4].
  simpl in C1, C3. subst res. simpl.
  exists xs1, xs2, xs3, r.
  rewrite C1, Hw, B1, A1, Hacc, <- !app_assoc. simpl.
  repeat split; auto.
Qed.

Lemma startswith_app_l (p s t : str) :
  startswith p s = true -> startswith p (s ++ t) = true.
Proof.
  intros H. apply startswith_split in H as [u ->].
  rewrite <- app_assoc. apply startswith_app.
Qed.

Lemma join_startswith (p sep x : str) (rest : list str) :
  startswith p x = true -> startswith p (join sep (x :: rest)) = true.
Proof.
  intros H. cbn [join]. destruct rest; [exact H|].
  now apply startswith_app_l.
Qed.

Lemma tcp_connection_test_prefix
    (tcp_commands msg_to_commands : list str) (msg_from_command : str)
    (sock_commands : list str) (w : world) :
  startswith (py "#MSG:")
    (fst (tcp_connection_test tcp_commands msg_to_commands msg_from_command
            sock_commands w)) = true.
Proof.
  destruct (tcp_connection_test_items tcp_commands msg_to_commands
              msg_from_command sock_commands w)
    as (xs1 & xs2 & xs3 & r & _ & _ & _ & _ & ->).
  destruct r as [r|]; cbn [message_items app]; now apply join_startswith.
Qed.

(** X12: the text the probe returns, read off its exchanges: [#MSG:] and
    the first line of the server's answer that holds the echo (or
    [#MSG: None] without a response), then for each socket query the
    first line of its answer that starts with [#SI: 1] or [#SS: 1], all
    joined by single spaces.  It always starts with [#MSG:]. *)
Theorem tcp_probe_report
    (tcp_commands msg_to_commands : list str) (msg_from_command : str)
    (sock_commands : list str) (w : world) :
  (exists (xs1 xs2 xs3 : list (str * option str)) (response : option str),
     w_wire (snd (tcp_connection_test tcp_commands msg_to_commands
                    msg_from_command sock_commands w))
       = w_wire w ++ xs1 ++ xs2 ++ (framed msg_from_command, response) :: xs3
     /\ map fst xs1 = map framed tcp_commands
     /\ map fst xs2 = map framed msg_to_commands
     /\ map fst xs3 = map framed sock_commands
     /\ fst (tcp_connection_test tcp_commands msg_to_commands
               msg_from_command sock_commands w)
        = join (py " ")
            (message_items response ++ flat_map socket_items (map snd xs3)))
  /\ startswith (py "#MSG:")
       (fst (tcp_connection_test tcp_commands msg_to_commands
               msg_from_command sock_commands w)) = true.
Proof.
  split; [apply tcp_connection_test_items | apply tcp_connection_test_prefix].
Qed.

Lemma filter_head (f : str -> bool) (lines : list str) (x : str)
    (rest : list str) :
  filter f lines = x :: rest -> f x = true.
Proof.
  intros H.
  assert (Hin : In x (filter f lines)) by (rewrite H; now left).
  now apply filter_In in Hin.
Qed.

Lemma check_rf_status_prefix (command : str) (w : world) :
  fst (check_rf_status command w) = []
  \/ startswith (py "#RFSTS:") (fst (check_rf_status command w)) = true.
Proof.
  unfold check_rf_status, bind.
  destruct (com_port_read_write command 2 w) as [r w1]. cbn [fst ret].
  destruct r as [r|]; [|now left].
  destruct (filter (startswith (py "#RFSTS:")) (splitlines r))
    as [|x rest] eqn:Hf; [now left|].
  right. apply join_startswith. exact (filter_head _ _ Hf).
Qed.

(** X13: the RF-status text is empty or starts with [#RFSTS:], and a
    network-status text is empty or starts with [+CEREG:], [+CREG:] or
    [+COPS:]: nothing else of the modem's answer reaches the log. *)
Theorem status_texts_start_with_their_prefix (command : str) (w : world) :
  (fst (check_rf_status command w) = []
   \/ startswith (py "#RFSTS:") (fst (check_rf_status command w)) = true)
  /\ (fst (check_network_status command w) = []
      \/ startswith (py "+CEREG:") (fst (check_network_status command w))
         = true
      \/ startswith (py "+CREG:") (fst (check_network_status command w))
         = true
      \/ startswith (py "+COPS:") (fst (check_network_status command w))
         = true).
Proof.
  split; [apply check_rf_status_prefix|].
  unfold check_network_status, bind.
  destruct (com_port_read_write command 1 w) as [r w1]. cbn [fst ret].
  destruct r as [r|]; [|now left].
  match goal with
  | |- context [filter ?f (splitlines r)] =>
      destruct (filter f (splitlines r)) as [|x rest] eqn:Hf
  end; [now left|].
  right. apply filter_head in Hf.
  apply orb_true_iff in Hf as [Hf|Hf];
    [apply orb_true_iff in Hf as [Hf|Hf]|].
  - left. now apply join_startswith.
  - right. left. now apply join_startswith.
  - right. right. now apply join_startswith.
Qed.

(** *** The traffic of one telemetry round *)

Lemma check_network_status_sent (command : str) (w : world) :
  sent (snd (check_network_status command w)) = sent w ++ [framed command].
Proof.
  unfold check_network_status, bind, sent.
  destruct (com_port_read_write command 1 w) as [r w1] eqn:Hx.
  apply com_port_read_write_effect in Hx as [Hw _]. simpl.
  now rewrite Hw, map_app.
Qed.

Lemma check_rf_status_sent (command : str) (w : world) :
  sent (snd (check_rf_status command w)) = sent w ++ [framed command].
Proof.
  unfold check_rf_status, bind, sent.
  destruct (com_port_read_write command 2 w) as [r w1] eqn:Hx.
  apply com_port_read_write_effect in Hx as [Hw _]. simpl.
  now rewrite Hw, map_app.
Qed.

Lemma tcp_connection_test_sent
    (tcp_commands msg_to_commands : list str) (msg_from_command : str)
    (sock_commands : list str) (w : world) :
  sent (snd (tcp_connection_test tcp_commands msg_to_commands
               msg_from_command sock_commands w))
  = sent w ++ map framed (tcp_commands ++ msg_to_commands
                          ++ msg_from_command :: sock_commands).
Proof.
  destruct (tcp_connection_test_items tcp_commands msg_to_commands
              msg_from_command sock_commands w)
    as (xs1 & xs2 & xs3 & r & Hw & H1 & H2 & H3 & _).
  unfold sent. rewrite Hw, !map_app. simpl.
  now rewrite H1, H2, H3.
Qed.

(** X14: whatever the modem answers, one round of the telemetry loop
    sends the same commands in the same order: the two of the connection,
    the three of the message, the read, the two socket queries, then the
    EPS and the legacy registration queries and the RF-status query. *)
Theorem telemetry_round_traffic
    (rf_command nw_eps_command nw_command : str) (w : world) :
  sent (snd (telemetry_round rf_command nw_eps_command nw_command w))
  = sent w
    ++ map framed (tcp_connect_commands ++ message_to_server
                   ++ message_from_server :: socket_commands
                   ++ [nw_eps_command; nw_command; rf_command]).
Proof.
  unfold telemetry_round, bind.
  pose proof (tcp_connection_test_sent tcp_connect_commands message_to_server
                message_from_server socket_commands w) as H1.
  destruct (tcp_connection_test tcp_connect_commands message_to_server
              message_from_server socket_commands w) as [tcp w1].
  pose proof (check_network_status_sent nw_eps_command w1) as H2.
  destruct (check_network_status nw_eps_command w1) as [eps w2].
  pose proof (check_network_status_sent nw_command w2) as H3.
  destruct (check_network_status nw_command w2) as [nw w3].
  pose proof (check_rf_status_sent rf_command w3) as H4.
  destruct (check_rf_status rf_command w3) as [rf w4].
  cbn [snd] in H1, H2, H3, H4. unfold f_write, strftime. cbn [snd].
  change (sent (World (w_env w4) (w_wire w4) _)) with (sent w4).
  rewrite H4, H3, H2, H1, !map_app, <- !app_assoc. reflexivity.
Qed.

End Session.


Lemma no_success_without_retries_witness :
  truthy (fst (configure_sim_module cfg_commands 0 steady_world)) = false.
Proof.
  apply (@no_success_without_retries Steady cfg_commands 0 steady_world).
  lia.
Defined.

Lemma unattached_modem_starts_no_mode_witness :
  w_file (snd (configure_sim_module cfg_commands TIMES_RETRY searching_world))
  = []
  /\ read_and_log_modem_data 3 signal_commands rf_status_command
       nw_eps_reg_status nw_reg_status cfg_commands searching_world
     = (tt, snd (configure_sim_module cfg_commands TIMES_RETRY
                   searching_world)).
Proof.
  destruct (@unattached_modem_starts_no_mode Searching 3 6 signal_commands
              cfg_commands flight_mode_commands rf_status_command
              nw_eps_reg_status nw_reg_status searching_world)
    as (Hread & _ & Hfile).
  - intros w0. vm_compute. reflexivity.
  - split; [exact Hfile | exact Hread].
Defined.


Lemma negative_budget_never_ends_witness :
  fst (pump_data_to_server 7 (-1) steady_world) = None
  /\ sent (snd (pump_data_to_server 7 (-1) steady_world))
     = sent steady_world
       ++ framed (py "AT#SGACT=1,1") :: framed socket_dial
          :: pump_rounds_sent 7.
Proof.
  apply (@negative_budget_never_ends Steady 7 (-1) steady_world).
  - lia.
  - intros w0. vm_compute. reflexivity.
Defined.

End LoggingExtras.

(** ** From the session log to the parser *)

Module LogLines.
Import Logging Bench Records Bench2 LoggingFacts LoggingExtras Parser
       ParserExtras.

Lemma not_in_app (c : N) (a b : str) : ~ In c a -> ~ In c b -> ~ In c (a ++ b).
Proof. intros Ha Hb H. apply in_app_or in H as [H|H]; contradiction. Qed.

Lemma absent (c : N) (s : str) : str_in [c] s = false -> ~ In c s.
Proof. apply str_in_char_false. Qed.

(** The fields [parse_line] cuts out of a text without [+] whose first
    [#] comes after [before]. *)
Lemma parse_line_one_hash (before after : str) :
  ~ In 35%N before -> ~ In 35%N after ->
  ~ In 43%N before -> ~ In 43%N after ->
  parse_line (before ++ 35%N :: after)
  = Fields (drop_last before) (Some after) None None None None None.
Proof.
  intros Hb Ha Pb Pa. rewrite parse_line_fields.
  change (py "#") with [35%N]. change (py "+") with [43%N].
  rewrite (@split_from_first 35%N before after [] Hb).
  rewrite (@split_from_absent 35%N after [] Ha).
  rewrite split_from_absent.
  - reflexivity.
  - apply not_in_app; [exact Pb|]. intros [H|H]; [discriminate | contradiction].
Qed.

(** X15: how [parse_line] reads the records of the flight cycle.  For a
    timestamp without [#] or [+], the timestamp field is the timestamp and
    its colon (what is dropped is the quote before the [#]), the second
    field is the marker text with its closing quote and line feed, and
    the other five are [None]. *)
Theorem parse_line_of_flight_records (timestamp : str) :
  ~ In 35%N timestamp -> ~ In 43%N timestamp ->
  parse_line (timestamp ++ pumping_marker)
  = Fields (timestamp ++ py ":")
           (Some (py "Pumping Data To Server...'" ++ [10%N]))
           None None None None None
  /\ parse_line (timestamp ++ flight_marker)
     = Fields (timestamp ++ py ":")
              (Some (py "Flight Mode Active...'" ++ [10%N]))
              None None None None None
  /\ parse_pump_modem_log
       [timestamp ++ pumping_marker; timestamp ++ flight_marker]
     = [(timestamp ++ py ":",
         Some (py "Pumping Data To Server...'" ++ [10%N]));
        (timestamp ++ py ":", Some (py "Flight Mode Active...'" ++ [10%N]))].
Proof.
  intros Hh Hp.
  assert (Hq : ~ In 35%N (timestamp ++ [58; 39]%N))
    by (apply not_in_app; [exact Hh | apply absent; reflexivity]).
  assert (Pq : ~ In 43%N (timestamp ++ [58; 39]%N))
    by (apply not_in_app; [exact Hp | apply absent; reflexivity]).
  assert (H1 : parse_line (timestamp ++ pumping_marker)
               = Fields (timestamp ++ py ":")
                   (Some (py "Pumping Data To Server...'" ++ [10%N]))
                   None None None None None).
  { replace (timestamp ++ pumping_marker)
      with ((timestamp ++ [58; 39]%N)
            ++ 35%N :: (py "Pumping Data To Server...'" ++ [10%N]))
      by (rewrite <- app_assoc; reflexivity).
    rewrite parse_line_one_hash; try assumption;
      try (apply absent; reflexivity).
    change (timestamp ++ [58; 39]%N) with (timestamp ++ [58%N] ++ [39%N]).
    now rewrite app_assoc, drop_last_app. }
  assert (H2 : parse_line (timestamp ++ flight_marker)
               = Fields (timestamp ++ py ":")
                   (Some (py "Flight Mode Active...'" ++ [10%N]))
                   None None None None None).
  { replace (timestamp ++ flight_marker)
      with ((timestamp ++ [58; 39]%N)
            ++ 35%N :: (py "Flight Mode Active...'" ++ [10%N]))
      by (rewrite <- app_assoc; reflexivity).
    rewrite parse_line_one_hash; try assumption;
      try (apply absent; reflexivity).
    change (timestamp ++ [58; 39]%N) with (timestamp ++ [58%N] ++ [39%N]).
    now rewrite app_assoc, drop_last_app. }
  split; [exact H1|]. split; [exact H2|].
  cbn [parse_pump_modem_log]. now rewrite H1, H2.
Qed.

Lemma parse_line_of_flight_records_witness :
  parse_line (bench_clock ++ pumping_marker)
  = Fields (bench_clock ++ py ":")
           (Some (py "Pumping Data To Server...'" ++ [10%N]))
           None None None None None.
Proof.
  apply (@parse_line_of_flight_records bench_clock);
    apply absent; reflexivity.
Defined.

(** The timestamp and the second field of a line whose first [#] comes
    after [before], the text after it starting with [p]. *)
Lemma parse_line_first_hash (before p rest : str) :
  ~ In 35%N before -> ~ In 35%N p ->
  exists (slot : str) (f2 f3 f4 f5 f6 : option str),
    parse_line (before ++ 35%N :: p ++ rest)
    = Fields (drop_last before) (Some slot) f2 f3 f4 f5 f6
    /\ startswith p slot = true.
Proof.
  intros Hb Hp. rewrite parse_line_fields.
  change (py "#") with [35%N].
  rewrite (@split_from_first 35%N before (p ++ rest) [] Hb).
  destruct (@split_from_head 35%N p rest [] Hp) as (q & more & ->).
  cbn [hd nth_error app].
  exists (p ++ q). repeat eexists. apply startswith_app.
Qed.

(** X16: how [parse_line] reads a record of the telemetry loop whose
    timestamp has no [#].  With an RF-status text the timestamp field is
    the timestamp and the second field starts with [RFSTS:].  Without one
    the timestamp field keeps a colon and the second field, where the
    RF status is looked for, starts with [MSG:], the text of the TCP
    probe. *)
Theorem parse_line_of_telemetry_record
    {E : Environment} (rf_command nw_eps_command nw_command : str)
    (w : world) :
  let tcp := tcp_connection_test tcp_connect_commands message_to_server
               message_from_server socket_commands w in
  let eps := check_network_status nw_eps_command (snd tcp) in
  let nw := check_network_status nw_command (snd eps) in
  let rf := check_rf_status rf_command (snd nw) in
  let timestamp := time_strftime (w_env (snd rf)) in
  ~ In 35%N timestamp ->
  exists (stamp slot : str) (f2 f3 f4 f5 f6 : option str),
    parse_line (telemetry_record rf_command nw_eps_command nw_command w)
    = Fields stamp (Some slot) f2 f3 f4 f5 f6
    /\ ((fst rf <> [] /\ stamp = timestamp
         /\ startswith (py "RFSTS:") slot = true)
        \/ (fst rf = [] /\ stamp = timestamp ++ py ":"
            /\ startswith (py "MSG:") slot = true)).
Proof.
  intros tcp eps nw rf timestamp Hts.
  unfold telemetry_record.
  rewrite (telemetry_round_record rf_command nw_eps_command nw_command w).
  rewrite last_last. fold tcp eps nw rf timestamp.
  destruct (check_rf_status_prefix rf_command (snd nw)) as [Hrf | Hrf];
    fold rf in Hrf.
  - pose proof (tcp_connection_test_prefix tcp_connect_commands
                  message_to_server message_from_server socket_commands w)
      as Htcp.
    fold tcp in Htcp. apply startswith_split in Htcp as [t Htcp].
    rewrite Hrf, Htcp.
    destruct (@parse_line_first_hash (timestamp ++ [58; 58]%N) (py "MSG:")
                (t ++ py ":" ++ fst eps ++ py ":" ++ fst nw ++ [10%N]))
      as (slot & f2 & f3 & f4 & f5 & f6 & Hparse & Hslot).
    + apply not_in_app; [exact Hts | apply absent; reflexivity].
    + apply absent. reflexivity.
    + exists (timestamp ++ py ":"), slot, f2, f3, f4, f5, f6. split.
      * etransitivity; [|etransitivity; [exact Hparse|]].
        -- f_equal. simpl. rewrite <- !app_assoc. reflexivity.
        -- f_equal.
           change (timestamp ++ [58; 58]%N)
             with (timestamp ++ [58%N] ++ [58%N]).
           now rewrite app_assoc, drop_last_app.
      * right. auto.
  - apply startswith_split in Hrf as [t Hrf].
    assert (Hne : fst rf <> []) by (rewrite Hrf; discriminate).
    rewrite Hrf.
    destruct (@parse_line_first_hash (timestamp ++ [58%N]) (py "RFSTS:")
                (t ++ py ":" ++ fst tcp ++ py ":" ++ fst eps ++ py ":"
                 ++ fst nw ++ [10%N]))
      as (slot & f2 & f3 & f4 & f5 & f6 & Hparse & Hslot).
    + apply not_in_app; [exact Hts | apply absent; reflexivity].
    + apply absent. reflexivity.
    + exists timestamp, slot, f2, f3, f4, f5, f6. split.
      * etransitivity; [|etransitivity; [exact Hparse|]].
        -- f_equal. simpl. rewrite <- !app_assoc. reflexivity.
        -- f_equal. now rewrite drop_last_app.
      * left. rewrite <- Hrf. auto.
Qed.

Lemma parse_line_of_telemetry_record_witness :
  exists (stamp slot : str) (f2 f3 f4 f5 f6 : option str),
    parse_line (@telemetry_record Steady rf_status_command nw_eps_reg_status
                  nw_reg_status steady_world)
    = Fields stamp (Some slot) f2 f3 f4 f5 f6.
Proof.
  destruct (@parse_line_of_telemetry_record Steady rf_status_command
              nw_eps_reg_status nw_reg_status steady_world)
    as (stamp & slot & f2 & f3 & f4 & f5 & f6 & Hparse & _).
  - apply absent. vm_compute. reflexivity.
  - now exists stamp, slot, f2, f3, f4, f5, f6.
Defined.

End LogLines.
